(** * Hunts Point logistics platform: the fallback demo response

    A shallow embedding of the API client of the Next.js front end (the
    module imported as [@/lib/api]; its text is the second part of
    [src/frontend/src/hooks/useOptimize.ts], lines 63-303): the response
    types, [getFallbackDemo], [fetchWithTimeout] and [fetchDemo]; and of the
    route lookup of [DriverView] ([src/unnamed/part_001]).

    JavaScript numbers that only ever hold integers (identifiers, counts,
    slots) are modelled as [Z]; numbers that hold fractions (coordinates,
    pollution levels, percentages) are modelled as IEEE 754 binary64 values,
    which is what a JavaScript number is. *)

From Stdlib Require Import ZArith QArith Qabs Uint63 PrimFloat FloatOps SpecFloat.
From Stdlib Require Import Ascii DecimalString DecimalPos DecimalZ.
From stdpp Require Import base list strings gmap.

Local Open Scope Z_scope.

(* A decimal literal denotes the nearest double, in Rocq as in JavaScript. *)
Set Warnings "-inexact-float,-register-all".

(** ** JavaScript numbers *)

Module JsNum.

(** An integer-valued JavaScript number as a double. Exact for
    [|z| < 2^53]. *)
Definition of_Z (z : Z) : float :=
  if z <? 0 then PrimFloat.opp (PrimFloat.of_uint63 (Uint63.of_Z (- z)))
  else PrimFloat.of_uint63 (Uint63.of_Z z).

(** The exact rational value of a finite double ([None] for NaN and the
    infinities). *)
Definition to_Q (x : float) : option Q :=
  match Prim2SF x with
  | S754_zero _ => Some 0%Q
  | S754_finite s m e =>
      let q := (inject_Z (Z.pos m) * Qpower 2 e)%Q in
      Some (Qred (if s then Qopp q else q))
  | S754_infinity _ | S754_nan => None
  end.

(** [a % b] on integers: the remainder takes the sign of the dividend. *)
Definition rem (a b : Z) : Z := Z.rem a b.

(** [a || b] on numbers: [0] is the only falsy integer. *)
Definition or (a b : Z) : Z := if a =? 0 then b else a.

(** [String(n)] for an integer. *)
Definition to_string (z : Z) : string :=
  NilZero.string_of_int (Z.to_int z).

End JsNum.

(** ** JavaScript arrays and strings *)

Module JsArray.

(** [Array.from({ length }, (_, i) => f(i))]. *)
Definition from {A} (length : Z) (f : Z -> A) : list A := f <$> seqZ 0 length.

(** [l.map((a, i) => f(a, i))]. *)
Definition mapi {A B} (f : A -> Z -> B) (l : list A) : list B :=
  imap (fun i a => f a (Z.of_nat i)) l.

(** [l[i]]: [undefined] (here [None]) outside the array. *)
Definition get {A} (l : list A) (i : Z) : option A :=
  if i <? 0 then None else l !! Z.to_nat i.

(** [l.length]. *)
Definition len {A} (l : list A) : Z := Z.of_nat (length l).

(** [l.includes(z)] on numbers. *)
Definition includes (l : list Z) (z : Z) : bool := existsb (Z.eqb z) l.

(** [l.findIndex(p)]: the first index whose element satisfies [p], or -1. *)
Fixpoint findIndex_from {A} (p : A -> bool) (l : list A) (i : Z) : Z :=
  match l with
  | [] => -1
  | a :: l' => if p a then i else findIndex_from p l' (i + 1)
  end.

Definition findIndex {A} (p : A -> bool) (l : list A) : Z := findIndex_from p l 0.

End JsArray.

Module JsString.

(** [s.padStart(targetLength, padString)]. *)
Definition padStart (s : string) (targetLength : nat) (padString : string) : string :=
  let fill := (targetLength - String.length s)%nat in
  match padString with
  | EmptyString => s
  | _ => String.substring 0 fill (String.concat "" (replicate fill padString)) +:+ s
  end.

(** A value interpolated in a template literal: [undefined] prints as the
    word. *)
Definition interpolate (o : option string) : string := default "undefined" o.

End JsString.

(** ** The response types of the API client *)

Module TruckAssignment.
Record t := mk { truck_id : Z; hub_id : Z; slot_id : Z }.
End TruckAssignment.

Module HubUsageItem.
Record t := mk { hub_id : Z; assigned : Z; capacity : Z; utilization_pct : float }.
End HubUsageItem.

Module CongestionPerTimeItem.
Record t := mk { slot_id : Z; hour : Z; trucks : Z }.
End CongestionPerTimeItem.

Module PollutionPerZoneItem.
Record t := mk { zone_id : Z; pollution_level : float; truck_count : Z }.
End PollutionPerZoneItem.

Module HubMapItem.
Record t := mk { hub_id : Z; zone_id : Z; lon : float; lat : float; usage : Z }.
End HubMapItem.

Module ZoneFeature.
Record geometry := mk_geometry { geometry_type : string; coordinates : list (list (list float)) }.
Record properties :=
  mk_properties { zone_id : Z; pollution : float; congestion : Z; is_green : bool }.
Record t := mk { type : string; geometry_of : geometry; properties_of : properties }.
End ZoneFeature.

Module FeatureCollection.
Record t := mk { type : string; features : list ZoneFeature.t }.
End FeatureCollection.

Module ArtificialMapData.
Record cell := mk_cell { i : Z; j : Z; cell_x : float; cell_y : float }.
Record zone_meta_item := mk_zone_meta { zone_id : Z; pollution : float; is_green : bool }.
Record hub := mk_hub { hub_id : Z; row : Z; col : Z; hub_x : float; hub_y : float }.
Record point := mk_point { x : float; y : float }.
Record t := mk {
  rows : Z;
  cols : Z;
  zone_cells : gmap string (list cell);
  zone_meta : list zone_meta_item;
  hubs : list hub;
  routes : list (list point)
}.
End ArtificialMapData.

Module Delivery.
(** The fields read from an array by index hold [None] where JavaScript
    yields [undefined]. *)
Record t := mk {
  delivery_id : string;
  truck_id : Z;
  driver_id : Z;
  driver_name : option string;
  from_zone_id : Z;
  from_address : option string;
  to_hub_id : Z;
  to_address : option string;
  scheduled_slot : Z;
  scheduled_time : string;
  status : option string
}.
End Delivery.

Module PlatformSummary.
Record driver_tip := mk_tip { truck_id : Z; hub_id : Z; slot_id : Z; tip : string }.
Record incoming := mk_incoming { in_zone_id : Z; in_slot_id : Z; trucks : Z }.
Record quiet_slots := mk_quiet { zone_id : Z; suggested_slots : list Z }.
Record t := mk {
  total_distance : Z;
  total_congestion_cost : Z;
  revenue : Z;
  driver_tips : list driver_tip;
  incoming_by_zone : list incoming;
  quiet_slots_by_zone : list quiet_slots;
  green_zones : list Z;
  n_trucks_assigned : Z
}.
End PlatformSummary.

Module OptimizeResponse.
Record t := mk {
  truck_assignments : list TruckAssignment.t;
  hub_usage : list HubUsageItem.t;
  congestion_per_time : list CongestionPerTimeItem.t;
  pollution_per_zone : list PollutionPerZoneItem.t;
  green_zones : list Z;
  zones_geojson : FeatureCollection.t;
  hubs : list HubMapItem.t;
  status : string;
  objective_value : option Z;
  n_assigned : Z;
  artificial_map : option ArtificialMapData.t;
  platform_summary : option PlatformSummary.t;
  deliveries : option (list Delivery.t);
  last_updated : option string
}.

(** The response with its [last_updated] field replaced. *)
Definition with_last_updated (o : option string) (r : t) : t :=
  mk (truck_assignments r) (hub_usage r) (congestion_per_time r)
     (pollution_per_zone r) (green_zones r) (zones_geojson r) (hubs r)
     (status r) (objective_value r) (n_assigned r) (artificial_map r)
     (platform_summary r) (deliveries r) o.
End OptimizeResponse.

(** ** [getFallbackDemo] *)

(** The local constants of [getFallbackDemo]; a constant that reads another
    takes it as an argument. *)
Module Demo.

Definition drivers : list string :=
  ["Mike Smith"; "Carlos Garcia"; "James Chen"; "Maria Rodriguez"; "David Lee"]%string.

Definition origins : list string :=
  ["Bronx Produce Co."; "Hunts Point Terminal"; "Fresh Direct Depot";
   "Food Center Drive"; "Southern Blvd Warehouse"]%string.

Definition hubs : list string :=
  ["Hub 1 — Hunts Point Charging"; "Hub 2 — Food Center"; "Hub 3 — Oak Point";
   "Hub 4 — Lafayette"]%string.

Definition statuses : list string :=
  ["scheduled"; "en_route"; "at_hub"; "completed"]%string.

Definition truckAssignments : list TruckAssignment.t :=
  JsArray.from 24 (fun i =>
    {| TruckAssignment.truck_id := i;
       TruckAssignment.hub_id := JsNum.rem i 4;
       TruckAssignment.slot_id := JsNum.rem (i * 5) 24 |}).

Definition hhmm (slot : Z) : string :=
  (JsString.padStart (JsNum.to_string slot) 2 "0" +:+ ":00")%string.

Definition deliveries (truckAssignments : list TruckAssignment.t) : list Delivery.t :=
  JsArray.mapi (fun a i =>
    {| Delivery.delivery_id := ("D-" +:+ JsNum.to_string (1000 + i))%string;
       Delivery.truck_id := TruckAssignment.truck_id a;
       Delivery.driver_id := TruckAssignment.truck_id a;
       Delivery.driver_name := JsArray.get drivers (JsNum.rem i (JsArray.len drivers));
       Delivery.from_zone_id := JsNum.rem i 5;
       Delivery.from_address := JsArray.get origins (JsNum.rem i (JsArray.len origins));
       Delivery.to_hub_id := TruckAssignment.hub_id a;
       Delivery.to_address := JsArray.get hubs (TruckAssignment.hub_id a);
       Delivery.scheduled_slot := TruckAssignment.slot_id a;
       Delivery.scheduled_time := hhmm (TruckAssignment.slot_id a);
       Delivery.status := JsArray.get statuses (JsNum.rem i (JsArray.len statuses)) |})
    truckAssignments.

Definition hubUsage : list HubUsageItem.t :=
  JsArray.mapi (fun assigned hub_id =>
    {| HubUsageItem.hub_id := hub_id;
       HubUsageItem.assigned := assigned;
       HubUsageItem.capacity := 20;
       HubUsageItem.utilization_pct := (100 * JsNum.of_Z assigned / 20)%float |})
    [12; 8; 10; 6].

Definition congestionPerTime (truckAssignments : list TruckAssignment.t)
  : list CongestionPerTimeItem.t :=
  JsArray.from 24 (fun s =>
    {| CongestionPerTimeItem.slot_id := s;
       CongestionPerTimeItem.hour := s;
       CongestionPerTimeItem.trucks :=
         JsNum.or
           (JsArray.len (filter (fun a => TruckAssignment.slot_id a = s) truckAssignments))
           (if JsNum.rem s 4 =? 0 then 2 else 0) |}).

Definition pollutionPerZone : list PollutionPerZoneItem.t :=
  JsArray.from 10 (fun z =>
    {| PollutionPerZoneItem.zone_id := z;
       PollutionPerZoneItem.pollution_level := (0.2 + 0.6 * (JsNum.of_Z z / 10))%float;
       PollutionPerZoneItem.truck_count := if z <? 5 then 3 else 2 |}).

Definition features : list ZoneFeature.t :=
  JsArray.from 10 (fun z =>
    {| ZoneFeature.type := "Feature";
       ZoneFeature.geometry_of :=
         {| ZoneFeature.geometry_type := "Polygon";
            ZoneFeature.coordinates :=
              [[[0; 0]; [1; 0]; [1; 1]; [0; 1]; [0; 0]]]%float |};
       ZoneFeature.properties_of :=
         {| ZoneFeature.zone_id := z;
            ZoneFeature.pollution := 0.5%float;
            ZoneFeature.congestion := 2;
            ZoneFeature.is_green := JsArray.includes [0; 2; 5] z |} |}).

Definition hubList : list HubMapItem.t :=
  [ HubMapItem.mk 0 0 (-73.88)%float 40.82%float 12;
    HubMapItem.mk 1 1 (-73.875)%float 40.82%float 8;
    HubMapItem.mk 2 2 (-73.88)%float 40.815%float 10;
    HubMapItem.mk 3 3 (-73.875)%float 40.815%float 6 ].

(** [for (let z = 0; z < 10; z++) zoneCells[z] = [...]]: the key is the
    number printed as a string. *)
Definition zoneCells : gmap string (list ArtificialMapData.cell) :=
  foldl (fun cells z =>
           <[JsNum.to_string z := [ArtificialMapData.mk_cell 0 0 0.5%float 0.5%float]]> cells)
        ∅ (seqZ 0 10).

Definition artificialMap (truckAssignments : list TruckAssignment.t)
  : ArtificialMapData.t :=
  {| ArtificialMapData.rows := 12;
     ArtificialMapData.cols := 12;
     ArtificialMapData.zone_cells := zoneCells;
     ArtificialMapData.zone_meta :=
       (fun p =>
          {| ArtificialMapData.zone_id := PollutionPerZoneItem.zone_id p;
             ArtificialMapData.pollution := PollutionPerZoneItem.pollution_level p;
             ArtificialMapData.is_green :=
               JsArray.includes [0; 2; 5] (PollutionPerZoneItem.zone_id p) |})
       <$> pollutionPerZone;
     ArtificialMapData.hubs :=
       JsArray.mapi (fun h i =>
         {| ArtificialMapData.hub_id := HubMapItem.hub_id h;
            ArtificialMapData.row := 2 + i;
            ArtificialMapData.col := 2 + i;
            ArtificialMapData.hub_x := ((2.5 + JsNum.of_Z i) / 12)%float;
            ArtificialMapData.hub_y := ((2.5 + JsNum.of_Z i) / 12)%float |})
         hubList;
     ArtificialMapData.routes :=
       (fun _ => [ArtificialMapData.mk_point 0.2 0.2;
                  ArtificialMapData.mk_point 0.5 0.5;
                  ArtificialMapData.mk_point 0.8 0.8]%float)
       <$> truckAssignments |}.

Definition driverTips (truckAssignments : list TruckAssignment.t)
  : list PlatformSummary.driver_tip :=
  (fun a =>
     {| PlatformSummary.truck_id := TruckAssignment.truck_id a;
        PlatformSummary.hub_id := TruckAssignment.hub_id a;
        PlatformSummary.slot_id := TruckAssignment.slot_id a;
        PlatformSummary.tip :=
          ("Charge at "
           +:+ JsString.interpolate (JsArray.get hubs (TruckAssignment.hub_id a))
           +:+ ", " +:+ hhmm (TruckAssignment.slot_id a)
           +:+ ". Off-peak — good for energy saving.")%string |})
  <$> truckAssignments.

Definition platformSummary (truckAssignments : list TruckAssignment.t)
  : PlatformSummary.t :=
  {| PlatformSummary.total_distance := 420;
     PlatformSummary.total_congestion_cost := 85;
     PlatformSummary.revenue := 3200;
     PlatformSummary.driver_tips := driverTips truckAssignments;
     PlatformSummary.incoming_by_zone :=
       [PlatformSummary.mk_incoming 0 6 3; PlatformSummary.mk_incoming 1 10 2];
     PlatformSummary.quiet_slots_by_zone :=
       JsArray.from 10 (fun z => PlatformSummary.mk_quiet z [0; 1; 2; 3; 4]);
     PlatformSummary.green_zones := [0; 2; 5];
     PlatformSummary.n_trucks_assigned := 24 |}.

End Demo.

(** [getFallbackDemo()]. Its only input is the clock: [now] is what
    [new Date().toISOString()] returns during the call. *)
Definition getFallbackDemo (now : string) : OptimizeResponse.t :=
  {| OptimizeResponse.truck_assignments := Demo.truckAssignments;
     OptimizeResponse.hub_usage := Demo.hubUsage;
     OptimizeResponse.congestion_per_time := Demo.congestionPerTime Demo.truckAssignments;
     OptimizeResponse.pollution_per_zone := Demo.pollutionPerZone;
     OptimizeResponse.green_zones := [0; 2; 5];
     OptimizeResponse.zones_geojson :=
       {| FeatureCollection.type := "FeatureCollection";
          FeatureCollection.features := Demo.features |};
     OptimizeResponse.hubs := Demo.hubList;
     OptimizeResponse.status := "Optimal";
     OptimizeResponse.objective_value := Some (-10000);
     OptimizeResponse.n_assigned := 24;
     OptimizeResponse.artificial_map := Some (Demo.artificialMap Demo.truckAssignments);
     OptimizeResponse.platform_summary := Some (Demo.platformSummary Demo.truckAssignments);
     OptimizeResponse.deliveries := Some (Demo.deliveries Demo.truckAssignments);
     OptimizeResponse.last_updated := Some now |}.

(** ** Promises, exceptions and parsed JSON *)

Module Js.

Inductive json :=
| Null
| Bool (b : bool)
| Number (x : float)
| Str (s : string)
| Array (items : list json)
| Object (fields : list (string * json)).

Inductive exn :=
| AbortError
| NetworkError
| SyntaxError
| TypeError
| Error (message : string).

(** The final state of a promise. [Pending] is a promise that never
    settles. *)
Inductive promise (A : Type) :=
| Fulfilled (a : A)
| Rejected (e : exn)
| Pending.

Arguments Fulfilled {A} a.
Arguments Rejected {A} e.
Arguments Pending {A}.

(** [const a = await p; k(a)] inside an async function. *)
Definition await {A B} (p : promise A) (k : A -> promise B) : promise B :=
  match p with
  | Fulfilled a => k a
  | Rejected e => Rejected e
  | Pending => Pending
  end.

(** [p.catch(h)]. *)
Definition catch {A} (p : promise A) (h : exn -> promise A) : promise A :=
  match p with
  | Rejected e => h e
  | _ => p
  end.

(** [try { body } catch { handler }] around awaited code. *)
Definition try_catch {A} (body : promise A) (handler : promise A) : promise A :=
  catch body (fun _ => handler).

(** [p.finally(f)] where [f] only clears a timer: the state of [p]. *)
Definition finally {A} (p : promise A) : promise A := p.

(** [v.name] for a name that is no built-in property (the client reads
    [detail]): reading a property of [null] throws; a parsed object holds
    the last of its duplicate keys; other values have no such property. *)
Definition get_property (v : json) (name : string) : exn + option json :=
  match v with
  | Null => inl TypeError
  | Object fields =>
      inr ((fun found : nat * (string * json) => found.2.2)
           <$> list_find (fun kv : string * json => kv.1 = name) (reverse fields))
  | _ => inr None
  end.

(** Truthiness of a value ([None] is [undefined]). *)
Definition truthy (o : option json) : bool :=
  match o with
  | None | Some Null => false
  | Some (Bool b) => b
  | Some (Number x) => negb (PrimFloat.eqb x 0 || PrimFloat.is_nan x)
  | Some (Str s) => negb (bool_decide (s = ""%string))
  | Some (Array _) | Some (Object _) => true
  end.

End Js.

(** ** [fetchWithTimeout] and [fetchDemo] *)

Module Response.
(** What the client reads of a [Response]: [res.ok], [res.statusText] and
    the promise returned by [res.json()]. *)
Record t := mk { ok : bool; statusText : string; json : Js.promise Js.json }.
End Response.

(** One run of [fetch(url, { signal })] left alone: it settles after some
    milliseconds with a response or a rejection, or it never settles. *)
Inductive fetch_run :=
| Settles (after_ms : Z) (outcome : Js.exn + Response.t)
| Never.

Definition DEMO_TIMEOUT_MS : Z := 8000.

Module DemoResult.
(** [data] is typed [OptimizeResponse], but on the API path it is whatever
    the body parsed to. *)
Inductive payload :=
| FromBody (body : Js.json)
| Built (r : OptimizeResponse.t).

Record t := mk { data : payload; fromApi : bool }.
End DemoResult.

Section FetchDemo.

(** [String(v)] on parsed JSON. *)
Variable ToString : Js.json -> string.
(** [process.env.NEXT_PUBLIC_API_URL || 'http://127.0.0.1:8000']. *)
Variable API_BASE : string.
(** The network: how [fetch] of a URL runs. *)
Variable fetch : string -> fetch_run.

(** The timer aborts the request if it fires before [fetch] settles;
    otherwise [finally] clears it and the state of [fetch] is passed on. *)
Definition fetchWithTimeout (url : string) (ms : Z) : Js.promise Response.t :=
  match fetch url with
  | Never => Js.Rejected Js.AbortError
  | Settles after_ms outcome =>
      if ms <=? after_ms then Js.Rejected Js.AbortError
      else Js.finally
             match outcome with
             | inl e => Js.Rejected e
             | inr res => Js.Fulfilled res
             end
  end.

Definition fetchDemo (now : string) : Js.promise DemoResult.t :=
  Js.try_catch
    (Js.await (fetchWithTimeout (API_BASE +:+ "/demo") DEMO_TIMEOUT_MS) (fun res =>
       if negb (Response.ok res) then
         Js.await
           (Js.catch (Response.json res)
              (fun _ => Js.Fulfilled (Js.Object [("detail"%string, Js.Str (Response.statusText res))])))
           (fun err =>
              match Js.get_property err "detail" with
              | inl e => Js.Rejected e
              | inr detail =>
                  Js.Rejected
                    (Js.Error (if Js.truthy detail then ToString (default Js.Null detail)
                               else ToString err))
              end)
       else
         Js.await (Response.json res) (fun data =>
           Js.Fulfilled {| DemoResult.data := DemoResult.FromBody data;
                           DemoResult.fromApi := true |})))
    (Js.Fulfilled {| DemoResult.data := DemoResult.Built (getFallbackDemo now);
                     DemoResult.fromApi := false |}).

End FetchDemo.

(** ** The route lookup of [DriverView] *)

Module DriverView.

(** [data?.artificial_map?.routes?.[data.truck_assignments?.findIndex(
    (a) => a.truck_id === selectedTruck) ?? 0]] for a response [data]. *)
Definition route (data : OptimizeResponse.t) (selectedTruck : Z)
  : option (list ArtificialMapData.point) :=
  match OptimizeResponse.artificial_map data with
  | None => None
  | Some m =>
      JsArray.get (ArtificialMapData.routes m)
        (JsArray.findIndex (fun a => TruckAssignment.truck_id a =? selectedTruck)
           (OptimizeResponse.truck_assignments data))
  end.

End DriverView.

(** ** Counting the assignments of a response *)

Definition count_slot (tas : list TruckAssignment.t) (s : Z) : Z :=
  JsArray.len (filter (fun a => TruckAssignment.slot_id a = s) tas).

Definition count_hub (tas : list TruckAssignment.t) (h : Z) : Z :=
  JsArray.len (filter (fun a => TruckAssignment.hub_id a = h) tas).

Definition count_hub_slot (tas : list TruckAssignment.t) (h s : Z) : Z :=
  JsArray.len
    (filter (fun a => TruckAssignment.hub_id a = h /\ TruckAssignment.slot_id a = s) tas).

(** A time stamp to evaluate the demo at. *)
Definition sample_now : string := "2025-01-01T00:00:00.000Z".

(** ** Specification predicates *)

(** [lo <= x <= hi] as comparisons of doubles. *)
Definition float_between (lo hi x : float) : Prop :=
  PrimFloat.leb lo x = true /\ PrimFloat.leb x hi = true.

(** The exact value of a double lies in the rational interval [[lo, hi]]. *)
Definition exactly_between (lo hi : Q) (x : float) : Prop :=
  exists q, JsNum.to_Q x = Some q /\ (lo <= q)%Q /\ (q <= hi)%Q.

(** [0.2 + 0.6 * (z / 10)] read over the rationals. *)
Definition pollution_level_exact (z : Z) : Q := ((2 # 10) + (6 # 10) * (z # 10))%Q.

(** The truck, hub and slot that a delivery, a tip and an assignment carry. *)
Definition delivery_key (d : Delivery.t) : Z * Z * Z :=
  (Delivery.truck_id d, Delivery.to_hub_id d, Delivery.scheduled_slot d).

Definition tip_key (t : PlatformSummary.driver_tip) : Z * Z * Z :=
  (PlatformSummary.truck_id t, PlatformSummary.hub_id t, PlatformSummary.slot_id t).

Definition assignment_key (a : TruckAssignment.t) : Z * Z * Z :=
  (TruckAssignment.truck_id a, TruckAssignment.hub_id a, TruckAssignment.slot_id a).

(** The hub usage table as a function of the assignments: [assigned] counts
    the hub's assignments and [utilization_pct] is
    [100 * assigned / capacity]. *)
Definition hub_usage_derived (r : OptimizeResponse.t) : Prop :=
  Forall (fun u =>
            HubUsageItem.assigned u
            = count_hub (OptimizeResponse.truck_assignments r) (HubUsageItem.hub_id u)
            /\ HubUsageItem.utilization_pct u
               = (100 * JsNum.of_Z (HubUsageItem.assigned u)
                  / JsNum.of_Z (HubUsageItem.capacity u))%float)
    (OptimizeResponse.hub_usage r).

(** The status tags of a result. *)
Definition status_tags : list string := ["optimal"; "feasible"; "infeasible"]%string.

(** The result carries one of the three tags, letter for letter, and a null
    objective value only when nothing was assigned. *)
Definition result_well_tagged (r : OptimizeResponse.t) : Prop :=
  OptimizeResponse.status r ∈ status_tags
  /\ (OptimizeResponse.objective_value r = None
      -> OptimizeResponse.truck_assignments r = []).

(** Lower case of an ASCII letter, to compare tags up to case. *)
Definition lower_ascii (c : Ascii.ascii) : Ascii.ascii :=
  let n := Ascii.nat_of_ascii c in
  if (65 <=? n)%nat && (n <=? 90)%nat then Ascii.ascii_of_nat (n + 32) else c.

Fixpoint lower (s : string) : string :=
  match s with
  | EmptyString => EmptyString
  | String c s' => String (lower_ascii c) (lower s')
  end.

(** The zone of a hub, looked up as [BusinessView] does:
    [data.hubs.map((h) => h.zone_id)[hub_id]]. *)
Definition hub_zone (r : OptimizeResponse.t) (hub_id : Z) : option Z :=
  JsArray.get (HubMapItem.zone_id <$> OptimizeResponse.hubs r) hub_id.

(** The trucks coming in slot [s] to the hubs of zone [z]. *)
Definition incoming_trucks (r : OptimizeResponse.t) (z s : Z) : Z :=
  JsArray.len
    (filter (fun a => hub_zone r (TruckAssignment.hub_id a) = Some z
                      /\ TruckAssignment.slot_id a = s)
       (OptimizeResponse.truck_assignments r)).

(** Slot [s1] ranks before slot [s2]: fewer trucks, or as many and a smaller
    slot id. *)
Definition quieter (r : OptimizeResponse.t) (z s1 s2 : Z) : Prop :=
  incoming_trucks r z s1 < incoming_trucks r z s2
  \/ (incoming_trucks r z s1 = incoming_trucks r z s2 /\ s1 < s2).

(** [l] lists the quietest slots of zone [z] in rank order: slots of the
    day, each ranking before the next, and before every slot left out. *)
Definition quiet_ranking (r : OptimizeResponse.t) (z : Z) (l : list Z) : Prop :=
  Forall (fun s => 0 <= s < 24) l
  /\ (forall (i : nat) (s1 s2 : Z),
        l !! i = Some s1 -> l !! S i = Some s2 -> quieter r z s1 s2)
  /\ (forall s s' : Z, s ∈ l -> 0 <= s' < 24 -> s' ∉ l -> quieter r z s s').

(** Every zone of the summary is offered its quietest slots in rank order. *)
Definition quiet_slots_ranked (r : OptimizeResponse.t) : Prop :=
  match OptimizeResponse.platform_summary r with
  | None => False
  | Some ps =>
      Forall (fun q => quiet_ranking r (PlatformSummary.zone_id q)
                         (PlatformSummary.suggested_slots q))
        (PlatformSummary.quiet_slots_by_zone ps)
  end.

(** The run of the request that [fetchDemo] sends. *)
Definition demo_run (API_BASE : string) (fetch : string -> fetch_run) : fetch_run :=
  fetch (API_BASE +:+ "/demo").

(** The request came back in time with an OK response whose body parsed
    to [j]. *)
Definition api_success (run : fetch_run) (j : Js.json) : Prop :=
  exists t res,
    run = Settles t (inr res)
    /\ t < DEMO_TIMEOUT_MS
    /\ Response.ok res = true
    /\ Response.json res = Js.Fulfilled j.

(** The body of a response that came back in time is read to its end (or
    to an error): the timer no longer runs during [res.json()]. *)
Definition body_read_settles (run : fetch_run) : Prop :=
  forall t res,
    run = Settles t (inr res) -> t < DEMO_TIMEOUT_MS -> Response.json res <> Js.Pending.

(** The two answers of [fetchDemo]. *)
Definition api_result (j : Js.json) : DemoResult.t :=
  {| DemoResult.data := DemoResult.FromBody j; DemoResult.fromApi := true |}.

Definition fallback_result (now : string) : DemoResult.t :=
  {| DemoResult.data := DemoResult.Built (getFallbackDemo now); DemoResult.fromApi := false |}.

(** A network that answers every request after 120 ms with an empty JSON
    object. *)
Definition sample_fetch (url : string) : fetch_run :=
  Settles 120 (inr (Response.mk true "OK" (Js.Fulfilled (Js.Object [])))).

(** ** The rest of the client and of the views *)

(** *** [parseInt] and [String] *)

Module JsGlobal.

(** The ASCII white space and line terminators ([parseInt] also skips the
    other Unicode spaces; the keys and numbers read here hold none). *)
Definition is_white_space (c : Ascii.ascii) : bool :=
  let n := Ascii.nat_of_ascii c in
  ((9 <=? n)%nat && (n <=? 13)%nat) || (n =? 32)%nat.

Fixpoint trim_start (s : string) : string :=
  match s with
  | String c s' => if is_white_space c then trim_start s' else s
  | EmptyString => s
  end.

(** The value of a character as a digit, in any radix up to 36. *)
Definition digit_value (c : Ascii.ascii) : option Z :=
  let n := Z.of_nat (Ascii.nat_of_ascii c) in
  if (48 <=? n) && (n <=? 57) then Some (n - 48)
  else if (97 <=? n) && (n <=? 122) then Some (n - 87)
  else if (65 <=? n) && (n <=? 90) then Some (n - 55)
  else None.

(** The value of the longest prefix of radix-[R] digits; [acc] is the value
    read so far, [None] while no digit was read. *)
Fixpoint digits (R : Z) (s : string) (acc : option Z) : option Z :=
  match s with
  | EmptyString => acc
  | String c s' =>
      match digit_value c with
      | Some d => if d <? R then digits R s' (Some (R * default 0 acc + d)) else acc
      | None => acc
      end
  end.

(** A leading [0x] or [0X], dropped. *)
Definition strip_hex_prefix (s : string) : option string :=
  match s with
  | String c0 (String c1 s') =>
      if bool_decide (c0 = "0"%char) && (bool_decide (c1 = "x"%char) || bool_decide (c1 = "X"%char))
      then Some s' else None
  | _ => None
  end.

(** [parseInt(string, radix)] for an integer radix; [None] is [NaN]. *)
Definition parseInt (string : string) (radix : Z) : option Z :=
  let s := trim_start string in
  let '(sign, s) :=
    match s with
    | String c s' =>
        if bool_decide (c = "-"%char) then (-1, s')
        else if bool_decide (c = "+"%char) then (1, s')
        else (1, s)
    | EmptyString => (1, s)
    end in
  let magnitude :=
    if radix =? 0 then
      match strip_hex_prefix s with
      | Some s' => digits 16 s' None
      | None => digits 10 s None
      end
    else if (radix <? 2) || (36 <? radix) then None
    else if radix =? 16 then digits 16 (default s (strip_hex_prefix s)) None
    else digits radix s None in
  Z.mul sign <$> magnitude.

(** Whether a parsed object has an own key of the given name. *)
Definition has_key (name : string) (fields : list (string * Js.json)) : bool :=
  existsb (fun kv : string * Js.json => bool_decide (kv.1 = name)) fields.

(** [String(v)] on parsed JSON, given how numbers print. Array elements are
    joined by commas and [null] elements print as nothing. An object prints
    as [[object Object]] through the inherited [toString]; an object with an
    own key [toString] (whose value, coming from JSON, is no function)
    cannot be converted: a [TypeError] is thrown, also from inside an
    array. *)
Fixpoint String_of (number : float -> string) (v : Js.json) : Js.exn + string :=
  match v with
  | Js.Null => inr "null"%string
  | Js.Bool b => inr (if b then "true" else "false")%string
  | Js.Number x => inr (number x)
  | Js.Str s => inr s
  | Js.Array items =>
      match
        (fix elements (l : list Js.json) : Js.exn + list string :=
           match l with
           | [] => inr []
           | item :: l' =>
               match
                 match item with
                 | Js.Null => inr ""%string
                 | _ => String_of number item
                 end
               with
               | inl e => inl e
               | inr printed =>
                   match elements l' with
                   | inl e => inl e
                   | inr rest => inr (printed :: rest)
                   end
               end
           end) items
      with
      | inl e => inl e
      | inr printed => inr (String.concat "," printed)
      end
  | Js.Object fields =>
      if has_key "toString" fields then inl Js.TypeError
      else inr "[object Object]"%string
  end.

(** [Math.max(...l, last)] on integers. *)
Definition Math_max (l : list Z) (last : Z) : Z := foldr Z.max last l.

End JsGlobal.

(** The elements of an array as [join] prints them, or the exception of the
    first one that cannot be printed. *)
Definition print_elements (number : float -> string) (items : list Js.json)
  : Js.exn + list string :=
  foldr (fun item rest =>
           match
             match item with
             | Js.Null => inr ""%string
             | _ => JsGlobal.String_of number item
             end
           with
           | inl e => inl e
           | inr printed =>
               match rest with
               | inl e => inl e
               | inr rest => inr (printed :: rest)
               end
           end)
        (inr []) items.

(** [l.find(p)]. *)
Definition Array_find {A} (p : A -> bool) (l : list A) : option A := List.find p l.

(** *** [runOptimize] *)

Module OptimizeParams.
Record t := mk {
  num_trucks : Z;
  num_hubs : Z;
  budget : float;
  peak_multiplier : float;
  with_optimization : bool
}.

(** [Partial<OptimizeParams>]: [None] is a key left out. *)
Record partial := mk_partial {
  set_num_trucks : option Z;
  set_num_hubs : option Z;
  set_budget : option float;
  set_peak_multiplier : option float;
  set_with_optimization : option bool
}.

(** [{ ...params, ...updates }]. *)
Definition spread (params : t) (updates : partial) : t :=
  {| num_trucks := default (num_trucks params) (set_num_trucks updates);
     num_hubs := default (num_hubs params) (set_num_hubs updates);
     budget := default (budget params) (set_budget updates);
     peak_multiplier := default (peak_multiplier params) (set_peak_multiplier updates);
     with_optimization := default (with_optimization params) (set_with_optimization updates) |}.
End OptimizeParams.

(** [fetch] without a timer: its own final state. *)
Definition plain_fetch (run : fetch_run) : Js.promise Response.t :=
  match run with
  | Never => Js.Pending
  | Settles _ (inl e) => Js.Rejected e
  | Settles _ (inr res) => Js.Fulfilled res
  end.

Section RunOptimize.

(** [String(v)] on parsed JSON, which may throw. *)
Variable ToString : Js.json -> Js.exn + string.
Variable API_BASE : string.
(** The network: how a POST of the parameters to a URL runs. *)
Variable post : string -> OptimizeParams.t -> fetch_run.

(** [new Error(err.detail || String(err))] converts its argument to the
    message; a conversion that throws is what the function rejects with. *)
Definition runOptimize (params : OptimizeParams.t) : Js.promise Js.json :=
  Js.await (plain_fetch (post (API_BASE +:+ "/optimize") params)) (fun res =>
    if negb (Response.ok res) then
      Js.await
        (Js.catch (Response.json res)
           (fun _ => Js.Fulfilled (Js.Object [("detail"%string, Js.Str (Response.statusText res))])))
        (fun err =>
           match Js.get_property err "detail" with
           | inl e => Js.Rejected e
           | inr detail =>
               match (if Js.truthy detail then ToString (default Js.Null detail)
                      else ToString err) with
               | inl e => Js.Rejected e
               | inr message => Js.Rejected (Js.Error message)
               end
           end)
    else Response.json res).

End RunOptimize.

(** [e instanceof Error ? e.message : fallback]: every exception of the
    model is an [Error]; [native] gives the messages the engine words. *)
Definition error_message (native : Js.exn -> string) (e : Js.exn) : string :=
  match e with
  | Js.Error message => message
  | _ => native e
  end.

(** *** The [useOptimize] hook *)

Definition DEBOUNCE_MS : Z := 500.

Module UseOptimize.

(** The state of the hook; [debounceRef] holds the pending timer: when it
    is due and the parameters its callback sends. *)
Record state := mk {
  params : OptimizeParams.t;
  data : option Js.json;
  loading : bool;
  error : option string;
  debounceRef : option (Z * OptimizeParams.t)
}.

Definition clear_timer (s : state) : state :=
  mk (params s) (data s) (loading s) (error s) None.

(** [fetchOptimize(p)] up to its [await]: the request leaves. *)
Definition fetchOptimize_begin (s : state) : state :=
  mk (params s) (data s) true None (debounceRef s).

(** [fetchOptimize(p)] after its [await], for the final state of the
    request. *)
Definition fetchOptimize_end (native : Js.exn -> string) (s : state)
    (outcome : Js.promise Js.json) : state :=
  match outcome with
  | Js.Fulfilled result => mk (params s) (Some result) false (error s) (debounceRef s)
  | Js.Rejected e =>
      mk (params s) (data s) false (Some (error_message native e)) (debounceRef s)
  | Js.Pending => s
  end.

(** One undisturbed call of [fetchOptimize]. *)
Definition fetchOptimize (native : Js.exn -> string) (s : state)
    (outcome : Js.promise Js.json) : state :=
  fetchOptimize_end native (fetchOptimize_begin s) outcome.

(** [updateParams(updates)] at time [now]: the pending timer is replaced.
    The callback spreads the updates over [captured], the parameters of the
    render that made it, not over what an earlier call of the same event
    has just set. *)
Definition updateParams (now : Z) (captured : OptimizeParams.t) (s : state)
    (updates : OptimizeParams.partial) : state :=
  let next := OptimizeParams.spread captured updates in
  mk next (data s) (loading s) (error s) (Some (now + DEBOUNCE_MS, next)).

(** The calls of [updateParams] made during one event, in order: all of
    them see the parameters of the render before the event. *)
Definition updateParams_calls (now : Z) (s : state) (calls : list OptimizeParams.partial)
  : state :=
  foldl (updateParams now (params s)) s calls.

(** [runNow()]: the state after the call, and the parameters sent. *)
Definition runNow (s : state) : state * list OptimizeParams.t :=
  (fetchOptimize_begin (clear_timer s), [params s]).

(** The timer callback, run once the timer is due. *)
Definition timer_fires (now : Z) (s : state) : state * list OptimizeParams.t :=
  match debounceRef s with
  | Some (due, next) =>
      if due <=? now then (fetchOptimize_begin (clear_timer s), [next]) else (s, [])
  | None => (s, [])
  end.

(** The first render and its effect. *)
Definition mount (initialParams : OptimizeParams.t) : state * list OptimizeParams.t :=
  (fetchOptimize_begin (mk initialParams None false None None), [initialParams]).

(** An event of the browser or of the network. The component renders again
    before the next event, so every callback of an event reads the state
    the event started from. *)
Inductive event :=
| UpdateParams (calls : list OptimizeParams.partial)
| RunNow
| Settled (outcome : Js.promise Js.json)
| Unmount.

(** An event at time [now]: a timer that is due runs first. The result is
    the new state and the requests sent. *)
Definition handle (native : Js.exn -> string) (now : Z) (s : state) (e : event)
  : state * list OptimizeParams.t :=
  let '(s1, sent) := timer_fires now s in
  match e with
  | UpdateParams calls => (updateParams_calls now s1 calls, sent)
  | RunNow => let '(s2, sent') := runNow s1 in (s2, sent ++ sent')
  | Settled outcome => (fetchOptimize_end native s1 outcome, sent)
  | Unmount => (clear_timer s1, sent)
  end.

(** A trace of timed events, in order. *)
Fixpoint run (native : Js.exn -> string) (s : state) (trace : list (Z * event))
  : state * list OptimizeParams.t :=
  match trace with
  | [] => (s, [])
  | (now, e) :: trace' =>
      let '(s1, sent) := handle native now s e in
      let '(s2, sent') := run native s1 trace' in
      (s2, sent ++ sent')
  end.

End UseOptimize.

(** *** The [useDemoData] hook and the page *)

Module UseDemoData.

Record state := mk {
  data : option DemoResult.payload;
  loading : bool;
  error : option string;
  fromApi : bool
}.

Definition initial : state := mk None true None true.

(** One undisturbed call of [load], for the final state of [fetchDemo()]. *)
Definition load (native : Js.exn -> string) (s : state)
    (outcome : Js.promise DemoResult.t) : state :=
  match outcome with
  | Js.Fulfilled result =>
      mk (Some (DemoResult.data result)) false None (DemoResult.fromApi result)
  | Js.Rejected e => mk (data s) false (Some (error_message native e)) (fromApi s)
  | Js.Pending => mk (data s) true None (fromApi s)
  end.

End UseDemoData.

Module Home.

Inductive PlatformRole := driver | company | business.

(** What the page shows. *)
Record view := mk {
  error_banner : bool;
  sample_banner : bool;
  spinner : bool;
  role_view : option PlatformRole;
  no_data : bool
}.

(** [data] as a condition: a body that parsed to a falsy value counts as no
    data. *)
Definition has_data (s : UseDemoData.state) : bool :=
  match UseDemoData.data s with
  | Some (DemoResult.FromBody body) => Js.truthy (Some body)
  | Some (DemoResult.Built _) => true
  | None => false
  end.

(** [error] as a condition: the empty string is falsy. *)
Definition has_error (s : UseDemoData.state) : bool :=
  match UseDemoData.error s with
  | Some message => negb (bool_decide (message = ""%string))
  | None => false
  end.

(** The page. With data, [Home] renders the view of the role on it;
    [view_renders] says whether that view renders the data or throws while
    rendering (it reads fields that a body from the API may lack). A view
    that throws takes the whole page down: [None]. *)
Definition render (view_renders : PlatformRole -> DemoResult.payload -> bool)
    (role : PlatformRole) (s : UseDemoData.state) : option view :=
  let page :=
    {| error_banner := has_error s;
       sample_banner := negb (UseDemoData.fromApi s) && has_data s;
       spinner := UseDemoData.loading s && negb (has_data s);
       role_view := if has_data s then Some role else None;
       no_data := negb (UseDemoData.loading s) && negb (has_data s) && negb (has_error s) |} in
  match UseDemoData.data s with
  | Some payload =>
      if has_data s && negb (view_renders role payload) then None else Some page
  | None => Some page
  end.

End Home.

(** *** What the views look up *)

(** [DriverView]: the assignment and the tip of the selected truck. *)
Definition DriverView_assignment (data : OptimizeResponse.t) (selectedTruck : Z)
  : option TruckAssignment.t :=
  Array_find (fun a => TruckAssignment.truck_id a =? selectedTruck)
    (OptimizeResponse.truck_assignments data).

Definition DriverView_tip (data : OptimizeResponse.t) (selectedTruck : Z)
  : option PlatformSummary.driver_tip :=
  match OptimizeResponse.platform_summary data with
  | None => None
  | Some summary =>
      Array_find (fun t => PlatformSummary.truck_id t =? selectedTruck)
        (PlatformSummary.driver_tips summary)
  end.

(** [myDeliveries]: the deliveries grouped by truck, in a [Map]. *)
Definition DriverView_myDeliveries (deliveries : list Delivery.t) : gmap Z (list Delivery.t) :=
  foldl (fun byTruck d =>
           let byTruck :=
             if decide (is_Some (byTruck !! Delivery.truck_id d)) then byTruck
             else <[Delivery.truck_id d := []]> byTruck in
           <[Delivery.truck_id d := default [] (byTruck !! Delivery.truck_id d) ++ [d]]> byTruck)
        ∅ deliveries.

(** [myDeliveries.get(truckId)?.[0] ?? deliveries.find(...)]. *)
Definition DriverView_firstDeliveryForTruck (deliveries : list Delivery.t) (truckId : Z)
  : option Delivery.t :=
  match DriverView_myDeliveries deliveries !! truckId ≫= head with
  | Some d => Some d
  | None => Array_find (fun d => Delivery.truck_id d =? truckId) deliveries
  end.

Module BusinessView.

(** [deliveriesToZone]: the deliveries whose hub, found by position in
    [data.hubs], lies in the selected zone. *)
Definition deliveriesToZone (data : OptimizeResponse.t) (selectedZone : Z) : list Delivery.t :=
  filter (fun d => hub_zone data (Delivery.to_hub_id d) = Some selectedZone)
    (default [] (OptimizeResponse.deliveries data)).

End BusinessView.

Module MapView.

(** [Math.max(...data.hubs.map((h) => h.usage), 1)]. *)
Definition maxUsage (data : OptimizeResponse.t) : Z :=
  JsGlobal.Math_max (HubMapItem.usage <$> OptimizeResponse.hubs data) 1.

(** [Math.max(...geojson.features.map((f) => f.properties.congestion), 1)]. *)
Definition maxCongestion (data : OptimizeResponse.t) : Z :=
  JsGlobal.Math_max
    ((fun f => ZoneFeature.congestion (ZoneFeature.properties_of f))
       <$> FeatureCollection.features (OptimizeResponse.zones_geojson data)) 1.

End MapView.

Module ChartsSection.

Record congestion_bar := mk_congestion { c_hour : Z; c_trucks : Z; c_name : string }.
Record pollution_bar := mk_pollution { p_zone : string; p_pollution : float; p_trucks : Z }.
Record hub_bar := mk_hub {
  h_name : string; h_assigned : Z; h_capacity : Z; h_utilization : float
}.

Definition congestionData (data : OptimizeResponse.t) : list congestion_bar :=
  (fun d =>
     {| c_hour := CongestionPerTimeItem.hour d;
        c_trucks := CongestionPerTimeItem.trucks d;
        c_name := (JsNum.to_string (CongestionPerTimeItem.hour d) +:+ "h")%string |})
  <$> OptimizeResponse.congestion_per_time data.

Definition pollutionData (data : OptimizeResponse.t) : list pollution_bar :=
  (fun d =>
     {| p_zone := ("Zone " +:+ JsNum.to_string (PollutionPerZoneItem.zone_id d))%string;
        p_pollution := PollutionPerZoneItem.pollution_level d;
        p_trucks := PollutionPerZoneItem.truck_count d |})
  <$> OptimizeResponse.pollution_per_zone data.

Definition hubData (data : OptimizeResponse.t) : list hub_bar :=
  (fun d =>
     {| h_name := ("Hub " +:+ JsNum.to_string (HubUsageItem.hub_id d))%string;
        h_assigned := HubUsageItem.assigned d;
        h_capacity := HubUsageItem.capacity d;
        h_utilization := HubUsageItem.utilization_pct d |})
  <$> OptimizeResponse.hub_usage data.

End ChartsSection.

(** *** Bursts of updates *)

(** Times that follow each other, from [t] on, by less than the debounce
    delay. *)
Fixpoint spaced (t : Z) (times : list Z) : Prop :=
  match times with
  | [] => True
  | t' :: times' => t <= t' < t + DEBOUNCE_MS /\ spaced t' times'
  end.

(** The events of a burst, each with its calls of [updateParams], as a
    trace. *)
Definition update_trace (burst : list (Z * list OptimizeParams.partial))
  : list (Z * UseOptimize.event) :=
  (fun ev => (ev.1, UseOptimize.UpdateParams ev.2)) <$> burst.

(** The parameters after an event that calls [updateParams]: only the last
    call of the event counts. *)
Definition after_calls (params : OptimizeParams.t) (calls : list OptimizeParams.partial)
  : OptimizeParams.t :=
  match last calls with
  | Some updates => OptimizeParams.spread params updates
  | None => params
  end.

(** A network that answers every POST after 80 ms with status 422 and the
    given body. *)
Definition sample_post (body : Js.promise Js.json) (url : string) (params : OptimizeParams.t)
  : fetch_run :=
  Settles 80 (inr (Response.mk false "Unprocessable Entity" body)).

Definition sample_params : OptimizeParams.t :=
  OptimizeParams.mk 100 5 1000 1 true.

(** * Properties *)

(** ** The helpers at work *)

Example to_Q_half : JsNum.to_Q 0.5%float = Some (1 # 2)%Q.
Proof. vm_compute. reflexivity. Qed.

Example to_string_1005 : JsNum.to_string 1005 = "1005"%string.
Proof. vm_compute. reflexivity. Qed.

Example padStart_5 : JsString.padStart (JsNum.to_string 5) 2 "0" = "05"%string.
Proof. vm_compute. reflexivity. Qed.

Example padStart_15 : JsString.padStart (JsNum.to_string 15) 2 "0" = "15"%string.
Proof. vm_compute. reflexivity. Qed.

Example findIndex_none : JsArray.findIndex (Z.eqb 7) [1; 2; 3] = -1.
Proof. reflexivity. Qed.

Example truckAssignments_7 :
  Demo.truckAssignments !! 7%nat = Some (TruckAssignment.mk 7 3 11).
Proof. reflexivity. Qed.

Example delivery_7 :
  Demo.deliveries Demo.truckAssignments !! 7%nat
  = Some (Delivery.mk "D-1007" 7 7 (Some "James Chen") 2 (Some "Fresh Direct Depot") 3
            (Some "Hub 4 — Lafayette") 11 "11:00" (Some "completed"))%string.
Proof. vm_compute. reflexivity. Qed.

(** ** Generic facts about the array helpers *)

Lemma from_length {A} (n : Z) (f : Z -> A) :
  0 <= n -> length (JsArray.from n f) = Z.to_nat n.
Proof. intros _. unfold JsArray.from. by rewrite length_fmap, length_seqZ. Qed.

Lemma from_lookup {A} (n : Z) (f : Z -> A) (i : nat) :
  (Z.of_nat i < n) -> JsArray.from n f !! i = Some (f (Z.of_nat i)).
Proof.
  intros Hi. unfold JsArray.from.
  rewrite list_lookup_fmap, lookup_seqZ_lt by lia.
  simpl. f_equal.
Qed.

Lemma mapi_length {A B} (f : A -> Z -> B) (l : list A) :
  length (JsArray.mapi f l) = length l.
Proof. apply length_imap. Qed.

Lemma mapi_lookup {A B} (f : A -> Z -> B) (l : list A) (i : nat) :
  JsArray.mapi f l !! i = (fun a => f a (Z.of_nat i)) <$> l !! i.
Proof. apply list_lookup_imap. Qed.

Lemma mapi_fmap {A B C} (g : B -> C) (f : A -> Z -> B) (h : A -> C) (l : list A) :
  (forall a i, g (f a i) = h a) -> g <$> JsArray.mapi f l = h <$> l.
Proof.
  intros Hgf. apply list_eq. intros i.
  rewrite !list_lookup_fmap, mapi_lookup.
  destruct (l !! i); simpl; [by rewrite Hgf | done].
Qed.

Lemma filter_none {A} (P : A -> Prop) `{!forall a, Decision (P a)} (l : list A) :
  Forall (fun a => ~ P a) l -> filter P l = [].
Proof.
  induction 1 as [|a l Ha _ IH]; [done|].
  rewrite filter_cons. by case_decide.
Qed.

Lemma count_hub_slot_le_slot tas h s : count_hub_slot tas h s <= count_slot tas s.
Proof.
  unfold count_hub_slot, count_slot, JsArray.len.
  induction tas as [|a tas IH]; [done|].
  rewrite !filter_cons.
  repeat case_decide; simpl; lia.
Qed.

Lemma count_slot_absent tas s :
  Forall (fun a => TruckAssignment.slot_id a <> s) tas -> count_slot tas s = 0.
Proof.
  intros Habsent. unfold count_slot. by rewrite filter_none.
Qed.

(** ** The assignments of the demo *)

Lemma demo_truck_ids : TruckAssignment.truck_id <$> Demo.truckAssignments = seqZ 0 24.
Proof. reflexivity. Qed.

Lemma demo_slot_range :
  Forall (fun a => 0 <= TruckAssignment.slot_id a < 24) Demo.truckAssignments.
Proof.
  unfold Demo.truckAssignments, JsArray.from.
  apply Forall_fmap, Forall_forall. intros i Hi. simpl.
  apply elem_of_seqZ in Hi. unfold JsNum.rem.
  apply Z.rem_bound_pos; lia.
Qed.

(** [(i * 5) % 24] visits every slot exactly once. *)
Lemma demo_count_slot s :
  count_slot Demo.truckAssignments s = if bool_decide (0 <= s < 24) then 1 else 0.
Proof.
  case_bool_decide as Hs.
  - replace s with (Z.of_nat (Z.to_nat s)) by lia.
    assert (Z.to_nat s < 24)%nat as Hn by lia.
    generalize dependent (Z.to_nat s). clear s Hs. intros n Hn.
    do 24 (destruct n as [|n]; [vm_compute; reflexivity|]). lia.
  - apply count_slot_absent.
    eapply Forall_impl; [apply demo_slot_range|]. simpl. intros a Ha Heq. lia.
Qed.

(** Every hub receives six of the 24 trucks. *)
Lemma demo_count_hub h :
  count_hub Demo.truckAssignments h = if bool_decide (0 <= h < 4) then 6 else 0.
Proof.
  case_bool_decide as Hh.
  - assert (h = 0 \/ h = 1 \/ h = 2 \/ h = 3) as Hcases by lia.
    destruct Hcases as [->|[->|[->| ->]]]; vm_compute; reflexivity.
  - unfold count_hub. rewrite filter_none; [done|].
    unfold Demo.truckAssignments, JsArray.from.
    apply Forall_fmap, Forall_forall. intros i Hi. simpl.
    apply elem_of_seqZ in Hi. unfold JsNum.rem.
    pose proof (Z.rem_bound_pos i 4). lia.
Qed.

Lemma demo_capacity :
  Forall (fun u => HubUsageItem.capacity u = 20) Demo.hubUsage.
Proof. repeat constructor. Qed.

(** ** Capacity, one assignment per truck, congestion *)

(** C1. In the demo response, the number of assignments of a hub in a slot
    is at most the capacity that [hub_usage] reports for that hub. *)
Theorem demo_hub_slot_within_capacity (now : string) (h s : Z) (u : HubUsageItem.t) :
  u ∈ OptimizeResponse.hub_usage (getFallbackDemo now) ->
  HubUsageItem.hub_id u = h ->
  count_hub_slot (OptimizeResponse.truck_assignments (getFallbackDemo now)) h s
  <= HubUsageItem.capacity u.
Proof.
  simpl. intros Hu _.
  pose proof demo_capacity as Hcap.
  rewrite Forall_forall in Hcap. rewrite (Hcap u Hu).
  etrans; [apply count_hub_slot_le_slot|].
  rewrite demo_count_slot. case_bool_decide; lia.
Qed.

Lemma demo_hub_slot_within_capacity_witness :
  HubUsageItem.mk 0 12 20 60%float ∈ OptimizeResponse.hub_usage (getFallbackDemo sample_now)
  /\ count_hub_slot (OptimizeResponse.truck_assignments (getFallbackDemo sample_now)) 0 0 <= 20.
Proof.
  assert (HubUsageItem.mk 0 12 20 60%float
          ∈ OptimizeResponse.hub_usage (getFallbackDemo sample_now)) as Hin.
  { apply (list_elem_of_lookup_2 _ 0%nat). vm_compute. reflexivity. }
  split; [exact Hin|].
  exact (demo_hub_slot_within_capacity sample_now 0 0 _ Hin eq_refl).
Defined.

(** No hub of the demo holds more than one truck in a slot. *)
Lemma demo_hub_slot_at_most_one h s : count_hub_slot Demo.truckAssignments h s <= 1.
Proof.
  etrans; [apply count_hub_slot_le_slot|].
  rewrite demo_count_slot. case_bool_decide; lia.
Qed.

Lemma demo_truck_ids_NoDup : NoDup (TruckAssignment.truck_id <$> Demo.truckAssignments).
Proof. rewrite demo_truck_ids. apply NoDup_seqZ. Qed.

(** C2. The truck ids of the demo assignments are pairwise distinct: every
    truck has at most one assignment. *)
Theorem demo_truck_ids_distinct (now : string) :
  NoDup (TruckAssignment.truck_id
           <$> OptimizeResponse.truck_assignments (getFallbackDemo now)).
Proof.
  change (OptimizeResponse.truck_assignments (getFallbackDemo now))
    with Demo.truckAssignments.
  exact demo_truck_ids_NoDup.
Qed.

(** Hence no truck of the demo is bound to two (hub, slot) pairs. *)
Lemma demo_truck_single_assignment (now : string) (a b : TruckAssignment.t) :
  a ∈ OptimizeResponse.truck_assignments (getFallbackDemo now) ->
  b ∈ OptimizeResponse.truck_assignments (getFallbackDemo now) ->
  TruckAssignment.truck_id a = TruckAssignment.truck_id b ->
  a = b.
Proof.
  change (OptimizeResponse.truck_assignments (getFallbackDemo now))
    with Demo.truckAssignments.
  intros [i Hi]%list_elem_of_lookup_1 [j Hj]%list_elem_of_lookup_1 Hid.
  assert (i = j) as ->; [|congruence].
  eapply NoDup_lookup; [apply demo_truck_ids_NoDup| |];
    rewrite list_lookup_fmap.
  - by rewrite Hi.
  - rewrite Hj. simpl. by rewrite Hid.
Qed.

(** What [congestionPerTime] reports for any list of assignments: the count
    of the slot, except that an empty slot divisible by four reports 2. *)
Lemma congestionPerTime_trucks (tas : list TruckAssignment.t) (s : Z) :
  0 <= s < 24 ->
  CongestionPerTimeItem.trucks <$> Demo.congestionPerTime tas !! Z.to_nat s
  = Some (if count_slot tas s =? 0
          then (if JsNum.rem s 4 =? 0 then 2 else 0)
          else count_slot tas s).
Proof.
  intros Hs. unfold Demo.congestionPerTime.
  rewrite from_lookup by lia. simpl.
  rewrite Z2Nat.id by lia. reflexivity.
Qed.

(** With no assignment at all, slot 0 still reports two trucks. *)
Example congestionPerTime_empty_slot0 :
  CongestionPerTimeItem.trucks <$> Demo.congestionPerTime [] !! 0%nat = Some 2.
Proof. reflexivity. Qed.

(** C3. The demo's [congestion_per_time] has one entry per slot 0..23, in
    order, and each reports the number of assignments of its slot, which is
    one. *)
Theorem demo_congestion_counts (now : string) :
  let r := getFallbackDemo now in
  CongestionPerTimeItem.slot_id <$> OptimizeResponse.congestion_per_time r = seqZ 0 24
  /\ Forall (fun c =>
               CongestionPerTimeItem.trucks c
               = count_slot (OptimizeResponse.truck_assignments r)
                   (CongestionPerTimeItem.slot_id c)
               /\ CongestionPerTimeItem.trucks c = 1)
       (OptimizeResponse.congestion_per_time r).
Proof.
  cbv zeta.
  change (OptimizeResponse.congestion_per_time (getFallbackDemo now))
    with (Demo.congestionPerTime Demo.truckAssignments).
  change (OptimizeResponse.truck_assignments (getFallbackDemo now))
    with Demo.truckAssignments.
  unfold Demo.congestionPerTime, JsArray.from. split.
  - apply list_eq. intros i. rewrite !list_lookup_fmap.
    by destruct (seqZ 0 24 !! i).
  - apply Forall_fmap, Forall_forall. intros s Hs.
    apply elem_of_seqZ in Hs. simpl.
    fold (count_slot Demo.truckAssignments s).
    rewrite demo_count_slot, bool_decide_true by lia.
    done.
Qed.

(** ** Pollution levels *)

Lemma pollution_level_exact_range (z : Z) :
  0 <= z <= 9 -> ((1 # 5) <= pollution_level_exact z)%Q /\ (pollution_level_exact z <= (37 # 50))%Q.
Proof.
  intros Hz. unfold pollution_level_exact, Qle. simpl. lia.
Qed.

(** C7. Every pollution level of the demo response is a double in [0, 1],
    and more precisely in [0.2, 0.74]; its exact value is a rational in
    [0, 1]. *)
Theorem demo_pollution_bounds (now : string) :
  Forall (fun p =>
            float_between 0 1 (PollutionPerZoneItem.pollution_level p)
            /\ float_between 0.2 0.74 (PollutionPerZoneItem.pollution_level p)
            /\ exactly_between 0 1 (PollutionPerZoneItem.pollution_level p))
    (OptimizeResponse.pollution_per_zone (getFallbackDemo now)).
Proof.
  change (OptimizeResponse.pollution_per_zone (getFallbackDemo now))
    with Demo.pollutionPerZone.
  unfold Demo.pollutionPerZone, JsArray.from.
  apply Forall_fmap, Forall_forall. intros z Hz. apply elem_of_seqZ in Hz.
  assert (exists n : nat, z = Z.of_nat n /\ (n < 10)%nat) as (n & -> & Hn).
  { exists (Z.to_nat z). lia. }
  clear Hz. simpl.
  do 10 (destruct n as [|n];
         [repeat split; try (vm_compute; reflexivity);
          eexists; (split; [vm_compute; reflexivity|]);
          split; vm_compute; discriminate|]).
  lia.
Qed.

(** The doubles are the exact values [0.2 + 0.06 z] up to rounding. *)
Lemma demo_pollution_near_exact :
  Forall (fun p =>
            exists q, JsNum.to_Q (PollutionPerZoneItem.pollution_level p) = Some q
                      /\ (Qabs.Qabs (q - pollution_level_exact (PollutionPerZoneItem.zone_id p))
                          <= 1 # 1000000000000000)%Q)
    Demo.pollutionPerZone.
Proof.
  repeat (constructor;
          [eexists; split; [vm_compute; reflexivity | vm_compute; discriminate]|]).
  constructor.
Qed.

(** ** Determinism *)

(** C8. Two calls of [getFallbackDemo] return the same assignments,
    whatever the clock reads; the responses differ in [last_updated] only. *)
Theorem demo_assignments_deterministic (now1 now2 : string) :
  OptimizeResponse.truck_assignments (getFallbackDemo now1)
  = OptimizeResponse.truck_assignments (getFallbackDemo now2)
  /\ forall o : option string,
       OptimizeResponse.with_last_updated o (getFallbackDemo now1)
       = OptimizeResponse.with_last_updated o (getFallbackDemo now2).
Proof. split; [|intros o]; reflexivity. Qed.

Lemma demo_last_updated (now : string) :
  OptimizeResponse.last_updated (getFallbackDemo now) = Some now.
Proof. reflexivity. Qed.

(** ** Alignment of the parallel arrays *)

(** Whatever the assignments are, deliveries, tips and routes follow them
    index by index. *)
Lemma deliveries_follow (tas : list TruckAssignment.t) :
  delivery_key <$> Demo.deliveries tas = assignment_key <$> tas.
Proof. unfold Demo.deliveries. by apply mapi_fmap. Qed.

Lemma driverTips_follow (tas : list TruckAssignment.t) :
  tip_key <$> Demo.driverTips tas = assignment_key <$> tas.
Proof. unfold Demo.driverTips. by rewrite <- list_fmap_compose. Qed.

Lemma routes_length (tas : list TruckAssignment.t) :
  length (ArtificialMapData.routes (Demo.artificialMap tas)) = length tas.
Proof. simpl. apply length_fmap. Qed.

Lemma demo_assignments_length : length Demo.truckAssignments = 24%nat.
Proof. reflexivity. Qed.

(** C10. In the demo response, [deliveries], [artificial_map.routes] and
    [platform_summary.driver_tips] have one entry per assignment (24, which
    is also [n_assigned] and [n_trucks_assigned]), and the i-th delivery
    carries the truck, hub and slot of the i-th assignment. *)
Theorem demo_parallel_arrays (now : string) :
  let r := getFallbackDemo now in
  let tas := OptimizeResponse.truck_assignments r in
  exists ds m ps,
    OptimizeResponse.deliveries r = Some ds
    /\ OptimizeResponse.artificial_map r = Some m
    /\ OptimizeResponse.platform_summary r = Some ps
    /\ length tas = 24%nat
    /\ length ds = length tas
    /\ length (ArtificialMapData.routes m) = length tas
    /\ length (PlatformSummary.driver_tips ps) = length tas
    /\ OptimizeResponse.n_assigned r = JsArray.len tas
    /\ PlatformSummary.n_trucks_assigned ps = JsArray.len tas
    /\ delivery_key <$> ds = assignment_key <$> tas
    /\ tip_key <$> PlatformSummary.driver_tips ps = assignment_key <$> tas.
Proof.
  cbv zeta.
  change (OptimizeResponse.truck_assignments (getFallbackDemo now))
    with Demo.truckAssignments.
  exists (Demo.deliveries Demo.truckAssignments),
         (Demo.artificialMap Demo.truckAssignments),
         (Demo.platformSummary Demo.truckAssignments).
  split_and!.
  - reflexivity.
  - reflexivity.
  - reflexivity.
  - apply demo_assignments_length.
  - unfold Demo.deliveries. apply mapi_length.
  - apply routes_length.
  - exact (length_fmap _ Demo.truckAssignments).
  - reflexivity.
  - reflexivity.
  - apply deliveries_follow.
  - apply driverTips_follow.
Qed.

(** The same alignment, read at an index. *)
Lemma demo_delivery_at (now : string) (i : nat) (a : TruckAssignment.t) :
  OptimizeResponse.truck_assignments (getFallbackDemo now) !! i = Some a ->
  exists d,
    (default [] (OptimizeResponse.deliveries (getFallbackDemo now))) !! i = Some d
    /\ Delivery.truck_id d = TruckAssignment.truck_id a
    /\ Delivery.to_hub_id d = TruckAssignment.hub_id a
    /\ Delivery.scheduled_slot d = TruckAssignment.slot_id a.
Proof.
  intros Ha. simpl. unfold Demo.deliveries. rewrite mapi_lookup.
  change (OptimizeResponse.truck_assignments (getFallbackDemo now))
    with Demo.truckAssignments in Ha.
  rewrite Ha. simpl. eauto.
Qed.

(** The route that [DriverView] draws exists for every truck of the demo. *)
Lemma demo_route_found (now : string) (selectedTruck : Z) :
  0 <= selectedTruck < 24 ->
  DriverView.route (getFallbackDemo now) selectedTruck
  = Some [ArtificialMapData.mk_point 0.2 0.2;
          ArtificialMapData.mk_point 0.5 0.5;
          ArtificialMapData.mk_point 0.8 0.8]%float.
Proof.
  intros Ht.
  assert (exists n : nat, selectedTruck = Z.of_nat n /\ (n < 24)%nat) as (n & -> & Hn).
  { exists (Z.to_nat selectedTruck). lia. }
  clear Ht.
  do 24 (destruct n as [|n]; [vm_compute; reflexivity|]). lia.
Qed.

(** A truck without assignment has no route: [findIndex] answers -1. *)
Example demo_route_missing :
  DriverView.route (getFallbackDemo sample_now) 24 = None.
Proof. vm_compute. reflexivity. Qed.

(** ** Hub usage *)

(** C4, as stated, fails on the demo: hub 0 reports 12 assigned trucks and
    has 6 assignments. *)
Lemma demo_hub_usage_not_derived : ~ hub_usage_derived (getFallbackDemo sample_now).
Proof.
  unfold hub_usage_derived. intros Hall.
  apply Forall_inv in Hall. destruct Hall as [Hassigned _].
  vm_compute in Hassigned. discriminate.
Qed.

(** C4, amended. The hub usage table of the demo is fixed: hubs 0..3 with
    [assigned] 12, 8, 10 and 6 and capacity 20; [utilization_pct] is
    [100 * assigned / capacity], exactly; each hub has six assignments. *)
Theorem demo_hub_usage_table (now : string) :
  let r := getFallbackDemo now in
  HubUsageItem.hub_id <$> OptimizeResponse.hub_usage r = [0; 1; 2; 3]
  /\ HubUsageItem.assigned <$> OptimizeResponse.hub_usage r = [12; 8; 10; 6]
  /\ Forall (fun u =>
               HubUsageItem.capacity u = 20
               /\ HubUsageItem.utilization_pct u
                  = (100 * JsNum.of_Z (HubUsageItem.assigned u)
                     / JsNum.of_Z (HubUsageItem.capacity u))%float
               /\ JsNum.to_Q (HubUsageItem.utilization_pct u)
                  = Some (Qred (inject_Z (100 * HubUsageItem.assigned u)
                                / inject_Z (HubUsageItem.capacity u)))
               /\ count_hub (OptimizeResponse.truck_assignments r) (HubUsageItem.hub_id u) = 6)
       (OptimizeResponse.hub_usage r).
Proof.
  cbv zeta. split_and!.
  - reflexivity.
  - reflexivity.
  - change (OptimizeResponse.truck_assignments (getFallbackDemo now))
      with Demo.truckAssignments.
    change (OptimizeResponse.hub_usage (getFallbackDemo now)) with Demo.hubUsage.
    repeat (constructor; [split_and!; vm_compute; reflexivity|]).
    constructor.
Qed.

(** ** Status and objective value *)

(** Read letter for letter, the capitalised ['Optimal'] of the demo is none
    of the lower-case tags. *)
Lemma demo_status_not_a_tag : ~ result_well_tagged (getFallbackDemo sample_now).
Proof.
  intros [Htag _]. revert Htag.
  change (OptimizeResponse.status (getFallbackDemo sample_now)) with "Optimal"%string.
  unfold status_tags. rewrite !elem_of_cons, elem_of_nil.
  intros [H|[H|[H|[]]]]; discriminate H.
Qed.

(** C5. The status of the demo response is one of the three tags: it is
    ['Optimal'], the tag [optimal] written with a capital. Its objective
    value is null only if there is no assignment: it is -10000, with 24
    assignments. *)
Theorem demo_status_objective (now : string) :
  let r := getFallbackDemo now in
  OptimizeResponse.status r = "Optimal"%string
  /\ lower (OptimizeResponse.status r) ∈ status_tags
  /\ (OptimizeResponse.objective_value r = None
      -> OptimizeResponse.truck_assignments r = [])
  /\ OptimizeResponse.objective_value r = Some (-10000)
  /\ length (OptimizeResponse.truck_assignments r) = 24%nat.
Proof.
  cbv zeta. split_and!; try reflexivity.
  - apply (list_elem_of_lookup_2 _ 0%nat). reflexivity.
  - discriminate.
Qed.

(** ** Quiet slots *)

Example demo_incoming_zone0 :
  (incoming_trucks (getFallbackDemo sample_now) 0 <$> seqZ 0 6) = [1; 0; 0; 0; 1; 0].
Proof. vm_compute. reflexivity. Qed.

(** C6, as stated, fails on the demo: zone 0 is offered slot 0, where its
    hub has a truck, ahead of slot 1, where it has none. *)
Lemma demo_quiet_slots_not_ranked : ~ quiet_slots_ranked (getFallbackDemo sample_now).
Proof.
  unfold quiet_slots_ranked. simpl. intros Hall.
  apply Forall_inv in Hall. destruct Hall as (_ & Hsorted & _).
  specialize (Hsorted 0%nat 0 1 eq_refl eq_refl).
  destruct Hsorted as [Hlt|[Heq _]]; vm_compute in *; discriminate.
Qed.

(** No truck of the demo comes to a zone that holds no hub. *)
Lemma demo_incoming_no_hub (now : string) (z s : Z) :
  Forall (fun h => HubMapItem.zone_id h <> z) (OptimizeResponse.hubs (getFallbackDemo now)) ->
  incoming_trucks (getFallbackDemo now) z s = 0.
Proof.
  intros Hz. unfold incoming_trucks, JsArray.len.
  rewrite filter_none; [done|].
  apply Forall_forall. intros a _ [Hzone _].
  unfold hub_zone, JsArray.get in Hzone.
  destruct (TruckAssignment.hub_id a <? 0); [done|].
  rewrite list_lookup_fmap in Hzone.
  destruct (OptimizeResponse.hubs (getFallbackDemo now) !! _) as [h|] eqn:Hh; [|done].
  rewrite Forall_forall in Hz.
  apply (Hz h); [by eapply list_elem_of_lookup_2 | by injection Hzone].
Qed.

(** C6, amended. The demo offers every zone 0..9 the fixed list
    [0, 1, 2, 3, 4]; for a zone that holds no hub, these are the quietest
    slots in rank order. *)
Theorem demo_quiet_slots (now : string) :
  let r := getFallbackDemo now in
  exists ps,
    OptimizeResponse.platform_summary r = Some ps
    /\ PlatformSummary.zone_id <$> PlatformSummary.quiet_slots_by_zone ps = seqZ 0 10
    /\ Forall (fun q =>
                 PlatformSummary.suggested_slots q = [0; 1; 2; 3; 4]
                 /\ (Forall (fun h => HubMapItem.zone_id h <> PlatformSummary.zone_id q)
                       (OptimizeResponse.hubs r)
                     -> quiet_ranking r (PlatformSummary.zone_id q)
                          (PlatformSummary.suggested_slots q)))
         (PlatformSummary.quiet_slots_by_zone ps).
Proof.
  cbv zeta. eexists. split; [reflexivity|]. split; [reflexivity|].
  change (PlatformSummary.quiet_slots_by_zone (Demo.platformSummary Demo.truckAssignments))
    with (JsArray.from 10 (fun z => PlatformSummary.mk_quiet z [0; 1; 2; 3; 4])).
  unfold JsArray.from. apply Forall_fmap, Forall_forall. intros z _. simpl.
  split; [reflexivity|]. intros Hz.
  assert (forall s s', s < s' -> quieter (getFallbackDemo now) z s s') as Hq.
  { intros s s' Hlt. right. by rewrite !demo_incoming_no_hub. }
  split_and!.
  - repeat constructor; lia.
  - intros i s1 s2 H1 H2. apply Hq.
    do 5 (destruct i as [|i]; [simpl in H1, H2; simplify_eq; lia|]).
    done.
  - intros s s' Hs Hs' Hout. apply Hq.
    rewrite !elem_of_cons, elem_of_nil in Hs.
    rewrite !elem_of_cons, elem_of_nil in Hout.
    lia.
Qed.

(** The zones of the demo that hold no hub are 4..9. *)
Lemma demo_zones_without_hub (now : string) (z : Z) :
  Forall (fun h => HubMapItem.zone_id h <> z) (OptimizeResponse.hubs (getFallbackDemo now))
  <-> ~ 0 <= z <= 3.
Proof.
  simpl. unfold Demo.hubList. rewrite !Forall_cons, Forall_nil. simpl. lia.
Qed.

(** ** [fetchDemo] always answers *)

Section FetchDemoFacts.

Variable ToString : Js.json -> string.
Variable API_BASE : string.
Variable fetch : string -> fetch_run.

(** The timeout turns a request that never settles into a rejection. *)
Lemma fetchWithTimeout_settles (url : string) (ms : Z) :
  fetchWithTimeout fetch url ms <> Js.Pending.
Proof.
  unfold fetchWithTimeout, Js.finally.
  destruct (fetch url) as [t [e|res]|]; [destruct (ms <=? t).. |]; discriminate.
Qed.

(** A response that came back in time is handed to [fetchDemo]. *)
Lemma fetchWithTimeout_in_time (t : Z) (res : Response.t) :
  demo_run API_BASE fetch = Settles t (inr res) -> t < DEMO_TIMEOUT_MS ->
  fetchWithTimeout fetch (API_BASE +:+ "/demo") DEMO_TIMEOUT_MS = Js.Fulfilled res.
Proof.
  unfold demo_run, fetchWithTimeout. intros -> Ht.
  by rewrite (proj2 (Z.leb_gt _ _) Ht).
Qed.

(** A non-OK response always ends in a throw, whatever its body. *)
Lemma fetchDemo_not_ok (now : string) (t : Z) (res : Response.t) :
  demo_run API_BASE fetch = Settles t (inr res) -> t < DEMO_TIMEOUT_MS ->
  Response.ok res = false -> Response.json res <> Js.Pending ->
  fetchDemo ToString API_BASE fetch now = Js.Fulfilled (fallback_result now).
Proof.
  intros Hrun Ht Hok Hbody. unfold fetchDemo.
  rewrite (fetchWithTimeout_in_time t res Hrun Ht).
  unfold Js.await at 1. rewrite Hok. simpl negb. cbv iota.
  destruct (Response.json res) as [err| e |]; [| |done].
  - simpl. by destruct (Js.get_property err "detail").
  - reflexivity.
Qed.

(** No outcome of the request makes [fetchDemo] reject. *)
Lemma fetchDemo_never_rejects (now : string) (e : Js.exn) :
  fetchDemo ToString API_BASE fetch now <> Js.Rejected e.
Proof.
  unfold fetchDemo, fetchWithTimeout, Js.finally.
  destruct (fetch (API_BASE +:+ "/demo")) as [t [e'|res]|];
    [destruct (DEMO_TIMEOUT_MS <=? t).. |]; try discriminate.
  simpl. destruct (Response.ok res); simpl.
  - destruct (Response.json res); discriminate.
  - destruct (Response.json res) as [err| e' |]; simpl; try discriminate.
    destruct (Js.get_property err "detail"); discriminate.
Qed.

(** If the body of an in-time response never arrives, neither does the
    answer of [fetchDemo]. *)
Lemma fetchDemo_body_stalls (now : string) (t : Z) (res : Response.t) :
  demo_run API_BASE fetch = Settles t (inr res) -> t < DEMO_TIMEOUT_MS ->
  Response.json res = Js.Pending ->
  fetchDemo ToString API_BASE fetch now = Js.Pending.
Proof.
  intros Hrun Ht Hbody. unfold fetchDemo.
  rewrite (fetchWithTimeout_in_time t res Hrun Ht).
  simpl. rewrite Hbody. by destruct (Response.ok res).
Qed.

(** Provided the body of a response is read to its end, [fetchDemo] fulfils
    whatever the outcome of the request (an OK response, a non-OK status, a
    network failure, the abort after 8000 ms, a body that is not JSON): with
    the parsed body and [fromApi = true] when an OK response came back in
    time and parsed, with the fallback demo and [fromApi = false]
    otherwise. *)
Theorem fetchDemo_total (now : string) :
  body_read_settles (demo_run API_BASE fetch) ->
  exists d,
    fetchDemo ToString API_BASE fetch now = Js.Fulfilled d
    /\ (forall j, api_success (demo_run API_BASE fetch) j -> d = api_result j)
    /\ ((forall j, ~ api_success (demo_run API_BASE fetch) j) -> d = fallback_result now).
Proof.
  intros Hsettles.
  destruct (demo_run API_BASE fetch) as [t [e|res]|] eqn:Hrun.
  - (* the request is rejected, or aborted first *)
    exists (fallback_result now). split_and!.
    + unfold fetchDemo, fetchWithTimeout. unfold demo_run in Hrun. rewrite Hrun.
      unfold Js.finally. by destruct (DEMO_TIMEOUT_MS <=? t).
    + intros j (t' & res' & Heq & _). discriminate Heq.
    + done.
  - destruct (decide (t < DEMO_TIMEOUT_MS)) as [Ht|Ht].
    + pose proof (Hsettles t res eq_refl Ht) as Hbody.
      pose proof (fetchWithTimeout_in_time t res Hrun Ht) as Hres.
      destruct (Response.ok res) eqn:Hok.
      * (* an OK response *)
        destruct (Response.json res) as [j| e |] eqn:Hjson; [| |done].
        -- exists (api_result j). split_and!.
           ++ unfold fetchDemo. rewrite Hres. simpl. by rewrite Hok, Hjson.
           ++ intros j' (t' & res' & Heq & _ & _ & Hj'). simplify_eq. congruence.
           ++ intros Hnone. destruct (Hnone j). by exists t, res.
        -- exists (fallback_result now). split_and!.
           ++ unfold fetchDemo. rewrite Hres. simpl. by rewrite Hok, Hjson.
           ++ intros j' (t' & res' & Heq & _ & _ & Hj'). simplify_eq. congruence.
           ++ done.
      * (* a non-OK status *)
        exists (fallback_result now). split_and!.
        -- apply (fetchDemo_not_ok now t res); auto.
        -- intros j' (t' & res' & Heq & _ & Hok' & _). simplify_eq. congruence.
        -- done.
    + (* the timer fired first *)
      exists (fallback_result now). split_and!.
      * unfold fetchDemo, fetchWithTimeout. unfold demo_run in Hrun. rewrite Hrun.
        by rewrite (proj2 (Z.leb_le _ _)) by lia.
      * intros j' (t' & res' & Heq & Ht' & _). simplify_eq. lia.
      * done.
  - (* the request never settles: the timer aborts it *)
    exists (fallback_result now). split_and!.
    + unfold fetchDemo, fetchWithTimeout. unfold demo_run in Hrun. by rewrite Hrun.
    + intros j (t' & res' & Heq & _). discriminate Heq.
    + done.
Qed.

End FetchDemoFacts.

Lemma fetchDemo_total_witness :
  body_read_settles (demo_run "http://127.0.0.1:8000" sample_fetch)
  /\ exists d,
       fetchDemo (fun _ => "[object Object]"%string) "http://127.0.0.1:8000" sample_fetch sample_now
       = Js.Fulfilled d
       /\ d = api_result (Js.Object []).
Proof.
  assert (body_read_settles (demo_run "http://127.0.0.1:8000" sample_fetch)) as Hsettles.
  { intros t res Heq _. injection Heq as _ <-. discriminate. }
  split; [exact Hsettles|].
  destruct (fetchDemo_total (fun _ => "[object Object]"%string) "http://127.0.0.1:8000"
              sample_fetch sample_now Hsettles) as (d & Hd & Hapi & _).
  exists d. split; [exact Hd|].
  apply Hapi. exists 120, (Response.mk true "OK" (Js.Fulfilled (Js.Object []))).
  split_and!; reflexivity.
Defined.

(** C9. [fetchDemo] is not total: the timer of [fetchWithTimeout] is
    cleared as soon as the response headers are in, so when an OK response
    comes back after 50 ms and its body never arrives, [fetchDemo] neither
    returns the API data nor falls back: it stays pending. *)
Theorem fetchDemo_hangs_on_stalled_body :
  fetchDemo (fun _ => ""%string) "http://127.0.0.1:8000"
    (fun _ => Settles 50 (inr (Response.mk true "OK" Js.Pending))) sample_now
  = Js.Pending.
Proof. reflexivity. Qed.

Example fetchDemo_timeout :
  fetchDemo (fun _ => ""%string) "http://127.0.0.1:8000" (fun _ => Never) sample_now
  = Js.Fulfilled (fallback_result sample_now).
Proof. reflexivity. Qed.

Example fetchDemo_status_500 :
  fetchDemo (fun _ => ""%string) "http://127.0.0.1:8000"
    (fun _ => Settles 35 (inr (Response.mk false "Internal Server Error" (Js.Rejected Js.SyntaxError))))
    sample_now
  = Js.Fulfilled (fallback_result sample_now).
Proof. reflexivity. Qed.

(** * Further properties of the client and of the views *)

(** ** Numbers printed and parsed back *)

Lemma digits_of_uint_acc (d : Decimal.uint) (a : positive) :
  JsGlobal.digits 10 (NilEmpty.string_of_uint d) (Some (Z.pos a))
  = Some (Z.pos (Pos.of_uint_acc d a)).
Proof.
  revert a. induction d; intros a; simpl; [reflexivity|..];
    rewrite <- IHd; do 2 f_equal;
    match goal with
    | |- context [Z.of_nat ?n] =>
        let v := eval vm_compute in (Z.of_nat n) in change (Z.of_nat n) with v
    end; lia.
Qed.

Lemma digits_of_uint_zero (d : Decimal.uint) :
  JsGlobal.digits 10 (NilEmpty.string_of_uint d) (Some 0)
  = Some (Z.of_N (Pos.of_uint d)).
Proof.
  induction d; simpl; [reflexivity| exact IHd |..]; apply digits_of_uint_acc.
Qed.

Lemma digits_of_uint (d : Decimal.uint) :
  d <> Decimal.Nil ->
  JsGlobal.digits 10 (NilEmpty.string_of_uint d) None = Some (Z.of_N (Pos.of_uint d)).
Proof.
  destruct d; intros Hd; simpl; [done| apply digits_of_uint_zero |..];
    apply digits_of_uint_acc.
Qed.

Lemma parseInt_of_uint (d : Decimal.uint) :
  d <> Decimal.Nil ->
  JsGlobal.parseInt (NilEmpty.string_of_uint d) 10 = Some (Z.of_N (Pos.of_uint d))
  /\ JsGlobal.parseInt (String "-" (NilEmpty.string_of_uint d)) 10
     = Some (- Z.of_N (Pos.of_uint d)).
Proof.
  intros Hd. pose proof (digits_of_uint d Hd) as Hdigits.
  unfold JsGlobal.parseInt.
  destruct d; try done; simpl in *; rewrite Hdigits; simpl;
    split; f_equal; lia.
Qed.

(** [String] is a right inverse of [parseInt] on the integers. *)
Lemma parseInt_to_string (z : Z) : JsGlobal.parseInt (JsNum.to_string z) 10 = Some z.
Proof.
  unfold JsNum.to_string. destruct z as [|p|p]; [reflexivity|..]; simpl.
  - pose proof (Unsigned.to_uint_nonnil p) as Hnil.
    replace (NilZero.string_of_uint (Pos.to_uint p))
      with (NilEmpty.string_of_uint (Pos.to_uint p))
      by (unfold NilZero.string_of_uint; by destruct (Pos.to_uint p)).
    rewrite (proj1 (parseInt_of_uint _ Hnil)), DecimalPos.Unsigned.of_to. reflexivity.
  - pose proof (Unsigned.to_uint_nonnil p) as Hnil.
    replace (NilZero.string_of_uint (Pos.to_uint p))
      with (NilEmpty.string_of_uint (Pos.to_uint p))
      by (unfold NilZero.string_of_uint; by destruct (Pos.to_uint p)).
    rewrite (proj2 (parseInt_of_uint _ Hnil)), DecimalPos.Unsigned.of_to. reflexivity.
Qed.

Lemma to_string_inj (z1 z2 : Z) : JsNum.to_string z1 = JsNum.to_string z2 -> z1 = z2.
Proof.
  intros Heq. pose proof (parseInt_to_string z1) as H1.
  rewrite Heq, parseInt_to_string in H1. by injection H1.
Qed.

(** X1. A zone id printed as the key of [zone_cells] and parsed back by
    [parseInt(zoneIdStr, 10)] is the zone id, for every safe integer. *)
Theorem parseInt_String_round_trip (z : Z) :
  - 2 ^ 53 < z < 2 ^ 53 ->
  JsGlobal.parseInt (JsNum.to_string z) 10 = Some z.
Proof. intros _. apply parseInt_to_string. Qed.

Lemma parseInt_String_round_trip_witness :
  - 2 ^ 53 < -1207 < 2 ^ 53
  /\ JsNum.to_string (-1207) = "-1207"%string
  /\ JsGlobal.parseInt "-1207" 10 = Some (-1207).
Proof.
  assert (- 2 ^ 53 < -1207 < 2 ^ 53) as Hrange by lia.
  split; [exact Hrange|]. split; [reflexivity|].
  exact (parseInt_String_round_trip (-1207) Hrange).
Defined.

Example parseInt_edges :
  JsGlobal.parseInt "  42px" 10 = Some 42
  /\ JsGlobal.parseInt "" 10 = None
  /\ JsGlobal.parseInt "-" 10 = None
  /\ JsGlobal.parseInt "0x1f" 10 = Some 0
  /\ JsGlobal.parseInt "0x1f" 16 = Some 31
  /\ JsGlobal.parseInt "0x1f" 0 = Some 31
  /\ JsGlobal.parseInt "+007" 10 = Some 7
  /\ JsGlobal.parseInt "12" 1 = None
  /\ JsGlobal.parseInt "102" 2 = Some 2.
Proof. repeat split. Qed.

(** ** The deliveries built from any list of assignments *)

Lemma get_in_range {A} (l : list A) (i : Z) :
  is_Some (JsArray.get l i) <-> 0 <= i < JsArray.len l.
Proof.
  unfold JsArray.get, JsArray.len. destruct (Z.ltb_spec i 0) as [Hneg|Hpos].
  - split; [intros [? ?]; done | lia].
  - rewrite lookup_lt_is_Some. lia.
Qed.

Lemma rem_in_range (i n : Z) : 0 <= i -> 0 < n -> 0 <= JsNum.rem i n < n.
Proof. intros Hi Hn. unfold JsNum.rem. apply Z.rem_bound_pos; lia. Qed.

Lemma deliveries_ids (tas : list TruckAssignment.t) :
  Delivery.delivery_id <$> Demo.deliveries tas
  = (fun n : nat => ("D-" +:+ JsNum.to_string (1000 + Z.of_nat n))%string)
      <$> seq 0 (length tas).
Proof.
  apply list_eq. intros i. unfold Demo.deliveries.
  rewrite !list_lookup_fmap, mapi_lookup.
  destruct (tas !! i) as [a|] eqn:Ha; simpl.
  - rewrite lookup_seq_lt by (by eapply lookup_lt_Some). reflexivity.
  - rewrite lookup_seq_ge by (by apply lookup_ge_None). reflexivity.
Qed.

(** X2. Whatever the assignments, the delivery ids [D-1000], [D-1001], ...
    are pairwise distinct. *)
Theorem deliveries_ids_distinct (tas : list TruckAssignment.t) :
  NoDup (Delivery.delivery_id <$> Demo.deliveries tas).
Proof.
  rewrite deliveries_ids. apply NoDup_fmap_2; [|apply NoDup_seq].
  intros n1 n2 Heq. simpl in Heq. injection Heq as Heq.
  apply to_string_inj in Heq. lia.
Qed.

(** X3. Whatever the assignments, no delivery has an undefined driver name,
    origin address or status, and its hub address is defined exactly when
    its hub id is one of 0..3. *)
Theorem deliveries_fields_defined (tas : list TruckAssignment.t) :
  Forall (fun d =>
            is_Some (Delivery.driver_name d)
            /\ is_Some (Delivery.from_address d)
            /\ is_Some (Delivery.status d)
            /\ (is_Some (Delivery.to_address d) <-> 0 <= Delivery.to_hub_id d < 4))
    (Demo.deliveries tas).
Proof.
  apply Forall_lookup. intros i d. unfold Demo.deliveries.
  rewrite mapi_lookup. destruct (tas !! i) as [a|]; [|done].
  simpl. intros [= <-]. simpl. split_and!.
  - apply get_in_range, rem_in_range; [lia|done].
  - apply get_in_range, rem_in_range; [lia|done].
  - apply get_in_range, rem_in_range; [lia|done].
  - apply get_in_range.
Qed.

(** ** What [DriverView] finds for the selected truck *)

Lemma find_head_filter {A} (p : A -> bool) (P : A -> Prop) `{!forall a, Decision (P a)}
    (l : list A) :
  (forall a, p a = true <-> P a) -> Array_find p l = head (filter P l).
Proof.
  intros Hp. unfold Array_find. induction l as [|a l IH]; [done|].
  simpl. rewrite filter_cons. destruct (p a) eqn:Hpa.
  - rewrite decide_True by (by apply Hp). done.
  - rewrite decide_False; [done|]. rewrite <- Hp. congruence.
Qed.

Lemma myDeliveries_step_lookup (m : gmap Z (list Delivery.t)) (ds : list Delivery.t) (t : Z) :
  foldl (fun byTruck d =>
           let byTruck :=
             if decide (is_Some (byTruck !! Delivery.truck_id d)) then byTruck
             else <[Delivery.truck_id d := []]> byTruck in
           <[Delivery.truck_id d := default [] (byTruck !! Delivery.truck_id d) ++ [d]]> byTruck)
        m ds !! t
  = match m !! t, filter (fun d => Delivery.truck_id d = t) ds with
    | None, [] => None
    | o, found => Some (default [] o ++ found)
    end.
Proof.
  revert m. induction ds as [|d ds IH]; intros m.
  - simpl. destruct (m !! t); simpl; [by rewrite app_nil_r | done].
  - simpl foldl. rewrite IH. clear IH. rewrite filter_cons.
    destruct (decide (Delivery.truck_id d = t)) as [->|Hne].
    + rewrite lookup_insert_eq. case_decide as Hhas.
      * destruct Hhas as [l Hl]. rewrite Hl. simpl. by rewrite <- app_assoc.
      * rewrite lookup_insert_eq. simpl.
        apply eq_None_not_Some in Hhas. rewrite Hhas. done.
    + rewrite lookup_insert_ne by done. case_decide as Hhas; [done|].
      by rewrite lookup_insert_ne.
Qed.

Lemma myDeliveries_lookup (ds : list Delivery.t) (t : Z) :
  DriverView_myDeliveries ds !! t
  = match filter (fun d => Delivery.truck_id d = t) ds with
    | [] => None
    | found => Some found
    end.
Proof.
  unfold DriverView_myDeliveries. rewrite myDeliveries_step_lookup.
  rewrite lookup_empty. by destruct (filter _ ds).
Qed.

(** X4. For every list of deliveries and every truck, the first delivery of
    the truck's group in [myDeliveries] is the first delivery of the truck
    in the list: the [?? deliveries.find(...)] alternative never yields
    anything else. *)
Theorem firstDeliveryForTruck_is_find (deliveries : list Delivery.t) (truckId : Z) :
  DriverView_firstDeliveryForTruck deliveries truckId
  = Array_find (fun d => Delivery.truck_id d =? truckId) deliveries
  /\ DriverView_myDeliveries deliveries !! truckId ≫= head
     = Array_find (fun d => Delivery.truck_id d =? truckId) deliveries.
Proof.
  assert (DriverView_myDeliveries deliveries !! truckId ≫= head
          = Array_find (fun d => Delivery.truck_id d =? truckId) deliveries) as Hgroup.
  { rewrite myDeliveries_lookup.
    rewrite (find_head_filter _ (fun d => Delivery.truck_id d = truckId))
      by (intros d; apply Z.eqb_eq).
    by destruct (filter _ deliveries). }
  split; [|exact Hgroup].
  unfold DriverView_firstDeliveryForTruck. rewrite Hgroup.
  by destruct (Array_find _ deliveries).
Qed.

Lemma findIndex_from_spec {A} (p : A -> bool) (l : list A) (i : Z) :
  match Array_find p l with
  | None => JsArray.findIndex_from p l i = -1
  | Some a =>
      exists n : nat, JsArray.findIndex_from p l i = i + Z.of_nat n /\ l !! n = Some a
  end.
Proof.
  unfold Array_find. revert i. induction l as [|a l IH]; intros i; simpl; [done|].
  destruct (p a).
  - exists 0%nat. split; [lia|done].
  - specialize (IH (i + 1)). destruct (find p l) as [b|]; [|done].
    destruct IH as (n & Hn & Hb). exists (S n). split; [lia|done].
Qed.

(** X5. If the response has a map whose routes are as many as the
    assignments, the route drawn for the selected truck is the one at the
    position of the truck's first assignment, and there is none exactly when
    the truck has no assignment. *)
Theorem route_follows_assignment (data : OptimizeResponse.t) (m : ArtificialMapData.t)
    (selectedTruck : Z) :
  OptimizeResponse.artificial_map data = Some m ->
  length (ArtificialMapData.routes m) = length (OptimizeResponse.truck_assignments data) ->
  match DriverView_assignment data selectedTruck with
  | None => DriverView.route data selectedTruck = None
  | Some a =>
      exists (n : nat) path,
        OptimizeResponse.truck_assignments data !! n = Some a
        /\ ArtificialMapData.routes m !! n = Some path
        /\ DriverView.route data selectedTruck = Some path
  end.
Proof.
  intros Hmap Hlen. unfold DriverView.route, DriverView_assignment. rewrite Hmap.
  unfold JsArray.findIndex.
  pose proof (findIndex_from_spec
                (fun a => TruckAssignment.truck_id a =? selectedTruck)
                (OptimizeResponse.truck_assignments data) 0) as Hspec.
  destruct (Array_find _ _) as [a|].
  - destruct Hspec as (n & -> & Ha).
    destruct (lookup_lt_is_Some_2 (ArtificialMapData.routes m) n) as [path Hpath].
    { rewrite Hlen. by eapply lookup_lt_Some. }
    exists n, path. split_and!; [done..|].
    unfold JsArray.get. rewrite (proj2 (Z.ltb_ge _ _)) by lia.
    by rewrite Z.add_0_l, Nat2Z.id.
  - rewrite Hspec. reflexivity.
Qed.

Lemma route_follows_assignment_witness :
  exists m,
    OptimizeResponse.artificial_map (getFallbackDemo sample_now) = Some m
    /\ length (ArtificialMapData.routes m)
       = length (OptimizeResponse.truck_assignments (getFallbackDemo sample_now))
    /\ DriverView_assignment (getFallbackDemo sample_now) 7 = Some (TruckAssignment.mk 7 3 11)
    /\ is_Some (DriverView.route (getFallbackDemo sample_now) 7).
Proof.
  exists (Demo.artificialMap Demo.truckAssignments).
  assert (length (ArtificialMapData.routes (Demo.artificialMap Demo.truckAssignments))
          = length (OptimizeResponse.truck_assignments (getFallbackDemo sample_now))) as Hlen.
  { reflexivity. }
  split; [reflexivity|]. split; [exact Hlen|]. split; [reflexivity|].
  pose proof (route_follows_assignment (getFallbackDemo sample_now)
                (Demo.artificialMap Demo.truckAssignments) 7 eq_refl Hlen) as Hroute.
  change (DriverView_assignment (getFallbackDemo sample_now) 7)
    with (Some (TruckAssignment.mk 7 3 11)) in Hroute.
  destruct Hroute as (n & path & _ & _ & ->). by eexists.
Defined.

Lemma find_aligned {A B K} (f : A -> K) (g : B -> K) (r : K -> bool)
    (l1 : list A) (l2 : list B) :
  f <$> l1 = g <$> l2 ->
  f <$> Array_find (fun a => r (f a)) l1 = g <$> Array_find (fun b => r (g b)) l2.
Proof.
  unfold Array_find. revert l2. induction l1 as [|a l1 IH]; intros [|b l2] Heq; try done.
  simpl in *. injection Heq as Hab Heq. rewrite Hab.
  destruct (r (g b)); simpl; [by rewrite Hab | by apply IH].
Qed.

(** X6. If the tips of the summary follow the assignments index by index,
    the tip shown for the selected truck names the hub and the slot of the
    assignment shown for it, and both are missing together. *)
Theorem tip_follows_assignment (data : OptimizeResponse.t) (summary : PlatformSummary.t)
    (selectedTruck : Z) :
  OptimizeResponse.platform_summary data = Some summary ->
  tip_key <$> PlatformSummary.driver_tips summary
  = assignment_key <$> OptimizeResponse.truck_assignments data ->
  tip_key <$> DriverView_tip data selectedTruck
  = assignment_key <$> DriverView_assignment data selectedTruck.
Proof.
  intros Hsummary Haligned. unfold DriverView_tip, DriverView_assignment.
  rewrite Hsummary.
  exact (find_aligned tip_key assignment_key (fun k => k.1.1 =? selectedTruck) _ _ Haligned).
Qed.

Lemma tip_follows_assignment_witness :
  tip_key <$> DriverView_tip (getFallbackDemo sample_now) 7 = Some (7, 3, 11)
  /\ assignment_key <$> DriverView_assignment (getFallbackDemo sample_now) 7 = Some (7, 3, 11).
Proof.
  pose proof (tip_follows_assignment (getFallbackDemo sample_now)
                (Demo.platformSummary Demo.truckAssignments) 7 eq_refl
                (driverTips_follow Demo.truckAssignments)) as Htip.
  assert (assignment_key <$> DriverView_assignment (getFallbackDemo sample_now) 7
          = Some (7, 3, 11)) as Ha by reflexivity.
  split; [|exact Ha]. rewrite Htip. exact Ha.
Defined.

(** ** The scales of [MapView] *)

Lemma Math_max_spec (l : list Z) (last : Z) :
  last <= JsGlobal.Math_max l last
  /\ Forall (fun x => x <= JsGlobal.Math_max l last) l
  /\ (JsGlobal.Math_max l last = last \/ JsGlobal.Math_max l last ∈ l).
Proof.
  unfold JsGlobal.Math_max. induction l as [|x l (Hlast & Hall & Hwhich)]; simpl.
  - split_and!; [lia | constructor | by left].
  - split_and!.
    + lia.
    + constructor; [lia|]. eapply Forall_impl; [exact Hall|]. simpl. lia.
    + destruct (Z.max_spec x (foldr Z.max last l)) as [[_ ->]|[_ ->]].
      * destruct Hwhich as [->|Hin]; [by left | right; by constructor].
      * right. constructor.
Qed.

(** X7. The two denominators that [MapView] scales by are at least 1, also
    with no hub and no zone, and no hub usage or zone congestion exceeds
    them; each is 1 or a value that occurs. *)
Theorem MapView_scales (data : OptimizeResponse.t) :
  (1 <= MapView.maxUsage data
   /\ Forall (fun h => HubMapItem.usage h <= MapView.maxUsage data)
        (OptimizeResponse.hubs data)
   /\ (MapView.maxUsage data = 1
       \/ exists h, h ∈ OptimizeResponse.hubs data
                    /\ HubMapItem.usage h = MapView.maxUsage data))
  /\ (1 <= MapView.maxCongestion data
      /\ Forall (fun f =>
                   ZoneFeature.congestion (ZoneFeature.properties_of f)
                   <= MapView.maxCongestion data)
           (FeatureCollection.features (OptimizeResponse.zones_geojson data))
      /\ (MapView.maxCongestion data = 1
          \/ exists f, f ∈ FeatureCollection.features (OptimizeResponse.zones_geojson data)
                       /\ ZoneFeature.congestion (ZoneFeature.properties_of f)
                          = MapView.maxCongestion data)).
Proof.
  unfold MapView.maxUsage, MapView.maxCongestion. split.
  - destruct (Math_max_spec (HubMapItem.usage <$> OptimizeResponse.hubs data) 1)
      as (Hlast & Hall & Hwhich).
    split_and!; [done | exact (proj1 (Forall_fmap _ _ _) Hall) |].
    destruct Hwhich as [?|Hin]; [by left|]. right.
    apply list_elem_of_fmap in Hin as (h & Hh & Hin). by exists h.
  - destruct (Math_max_spec
                ((fun f => ZoneFeature.congestion (ZoneFeature.properties_of f))
                   <$> FeatureCollection.features (OptimizeResponse.zones_geojson data)) 1)
      as (Hlast & Hall & Hwhich).
    split_and!; [done | exact (proj1 (Forall_fmap _ _ _) Hall) |].
    destruct Hwhich as [?|Hin]; [by left|]. right.
    apply list_elem_of_fmap in Hin as (f & Hf & Hin). by exists f.
Qed.

(** ** The deliveries [BusinessView] lists for a zone *)

(** X8. [BusinessView] finds the zone of a delivery's hub by position in
    [data.hubs]. If every hub sits at the position of its id, the deliveries
    listed for a zone are those whose hub exists and lies in the zone. *)
Theorem deliveriesToZone_by_hub_id (data : OptimizeResponse.t) (selectedZone : Z)
    (d : Delivery.t) :
  (forall (i : nat) h, OptimizeResponse.hubs data !! i = Some h
                       -> HubMapItem.hub_id h = Z.of_nat i) ->
  d ∈ BusinessView.deliveriesToZone data selectedZone
  <-> d ∈ default [] (OptimizeResponse.deliveries data)
      /\ exists h, h ∈ OptimizeResponse.hubs data
                   /\ HubMapItem.hub_id h = Delivery.to_hub_id d
                   /\ HubMapItem.zone_id h = selectedZone.
Proof.
  intros Hids. unfold BusinessView.deliveriesToZone.
  rewrite list_elem_of_filter.
  enough (hub_zone data (Delivery.to_hub_id d) = Some selectedZone
          <-> exists h, h ∈ OptimizeResponse.hubs data
                        /\ HubMapItem.hub_id h = Delivery.to_hub_id d
                        /\ HubMapItem.zone_id h = selectedZone) as Hzone by tauto.
  unfold hub_zone, JsArray.get. split.
  - destruct (Z.ltb_spec (Delivery.to_hub_id d) 0) as [|Hpos]; [done|].
    rewrite list_lookup_fmap.
    destruct (OptimizeResponse.hubs data !! _) as [h|] eqn:Hh; [|done].
    simpl. intros [= Hz]. exists h. split_and!; [by eapply list_elem_of_lookup_2 | | done].
    rewrite (Hids _ _ Hh). lia.
  - intros (h & [i Hi]%list_elem_of_lookup_1 & Hid & Hz).
    pose proof (Hids i h Hi) as Hpos.
    rewrite (proj2 (Z.ltb_ge _ _)) by lia.
    rewrite list_lookup_fmap.
    replace (Z.to_nat (Delivery.to_hub_id d)) with i by lia.
    rewrite Hi. simpl. by rewrite Hz.
Qed.

Lemma deliveriesToZone_by_hub_id_witness :
  length (BusinessView.deliveriesToZone (getFallbackDemo sample_now) 2) = 6%nat
  /\ forall d, d ∈ BusinessView.deliveriesToZone (getFallbackDemo sample_now) 2
               -> exists h, h ∈ OptimizeResponse.hubs (getFallbackDemo sample_now)
                            /\ HubMapItem.hub_id h = Delivery.to_hub_id d
                            /\ HubMapItem.zone_id h = 2.
Proof.
  split; [vm_compute; reflexivity|]. intros d Hd.
  refine (proj2 (proj1 (deliveriesToZone_by_hub_id (getFallbackDemo sample_now) 2 d _) Hd)).
  intros i h Hi.
  do 4 (destruct i as [|i]; [injection Hi as <-; reflexivity|]).
  discriminate Hi.
Defined.

(** A delivery whose hub id is no position of [data.hubs] is listed for no
    zone. *)
Lemma deliveriesToZone_unknown_hub (data : OptimizeResponse.t) (selectedZone : Z)
    (d : Delivery.t) :
  ~ 0 <= Delivery.to_hub_id d < JsArray.len (OptimizeResponse.hubs data) ->
  d ∉ BusinessView.deliveriesToZone data selectedZone.
Proof.
  intros Hout. unfold BusinessView.deliveriesToZone.
  rewrite list_elem_of_filter. intros [Hzone _]. apply Hout.
  unfold hub_zone in Hzone.
  assert (is_Some (JsArray.get (HubMapItem.zone_id <$> OptimizeResponse.hubs data)
                     (Delivery.to_hub_id d))) as Hsome by (by eexists).
  apply get_in_range in Hsome. unfold JsArray.len in *.
  by rewrite length_fmap in Hsome.
Qed.

(** ** [runOptimize] *)

Section RunOptimizeFacts.

Variable ToString : Js.json -> Js.exn + string.
Variable API_BASE : string.
Variable post : string -> OptimizeParams.t -> fetch_run.

(** What a non-OK response with a body makes of [runOptimize]: always a
    rejection. *)
Lemma runOptimize_throws (err : Js.json) :
  exists e,
    match Js.get_property err "detail" with
    | inl e => Js.Rejected e
    | inr detail =>
        match (if Js.truthy detail then ToString (default Js.Null detail)
               else ToString err) with
        | inl e => Js.Rejected e
        | inr message => Js.Rejected (Js.Error message)
        end
    end = (Js.Rejected e : Js.promise Js.json).
Proof.
  destruct (Js.get_property err "detail") as [e|detail]; [by eexists|].
  destruct (if Js.truthy detail then _ else _); by eexists.
Qed.

(** A non-OK response makes [runOptimize] reject, unless its body never
    arrives. *)
Lemma runOptimize_not_ok (params : OptimizeParams.t) (t : Z) (res : Response.t) :
  post (API_BASE +:+ "/optimize") params = Settles t (inr res) ->
  Response.ok res = false -> Response.json res <> Js.Pending ->
  exists e, runOptimize ToString API_BASE post params = Js.Rejected e.
Proof.
  intros Hrun Hok Hbody. unfold runOptimize. rewrite Hrun.
  cbn [plain_fetch Js.await]. rewrite Hok. cbn [negb].
  destruct (Response.json res) as [err| e |]; [| |done];
    cbn [Js.catch Js.await]; apply runOptimize_throws.
Qed.

(** X9. [runOptimize] fulfils exactly when the server answers with an OK
    response whose body parses, however late, and then with that body; it
    stays pending exactly when the request or the body of a response never
    settles; in every other case it rejects. *)
Theorem runOptimize_outcome (params : OptimizeParams.t) :
  (forall j,
     runOptimize ToString API_BASE post params = Js.Fulfilled j
     <-> exists t res,
           post (API_BASE +:+ "/optimize") params = Settles t (inr res)
           /\ Response.ok res = true /\ Response.json res = Js.Fulfilled j)
  /\ (runOptimize ToString API_BASE post params = Js.Pending
      <-> post (API_BASE +:+ "/optimize") params = Never
          \/ exists t res,
               post (API_BASE +:+ "/optimize") params = Settles t (inr res)
               /\ Response.json res = Js.Pending).
Proof.
  unfold runOptimize.
  destruct (post (API_BASE +:+ "/optimize") params) as [t [e|res]|] eqn:Hrun;
    cbn [plain_fetch Js.await].
  - split; [intros j|]; split; try done.
    + intros (? & ? & [=] & _).
    + intros [[=]|(? & ? & [=] & _)].
  - destruct (Response.ok res) eqn:Hok; cbn [negb].
    + split; [intros j|]; split.
      * intros Hj. by exists t, res.
      * intros (? & ? & [= <- <-] & _ & Hj). done.
      * intros Hp. right. by exists t, res.
      * intros [[=]|(? & ? & [= <- <-] & Hp)]. done.
    + destruct (Response.json res) as [err| e |] eqn:Hjson; cbn [Js.catch Js.await].
      * destruct (runOptimize_throws err) as [e ->].
        split; [intros j|]; split; try done.
        -- intros (? & ? & [= <- <-] & Hok' & _). congruence.
        -- intros [[=]|(? & ? & [= <- <-] & Hp)]. congruence.
      * destruct (runOptimize_throws
                    (Js.Object [("detail"%string, Js.Str (Response.statusText res))]))
          as [e' ->].
        split; [intros j|]; split; try done.
        -- intros (? & ? & [= <- <-] & Hok' & _). congruence.
        -- intros [[=]|(? & ? & [= <- <-] & Hp)]. congruence.
      * split; [intros j|]; split; try done.
        -- intros (? & ? & [= <- <-] & Hok' & _). congruence.
        -- intros _. right. by exists t, res.
  - split; [intros j|]; split; try done.
    + intros (? & ? & [=] & _).
    + intros _. by left.
Qed.

End RunOptimizeFacts.

Section RunOptimizeMessages.

Variable number : float -> string.
Variable API_BASE : string.
Variable post : string -> OptimizeParams.t -> fetch_run.

(** X10. When a non-OK response has a body that is not JSON, the error of
    [runOptimize] carries the status text of the response; if the status
    text is empty, it carries [[object Object]]. *)
Theorem runOptimize_error_not_json (params : OptimizeParams.t) (t : Z) (res : Response.t)
    (e : Js.exn) :
  post (API_BASE +:+ "/optimize") params = Settles t (inr res) ->
  Response.ok res = false ->
  Response.json res = Js.Rejected e ->
  runOptimize (JsGlobal.String_of number) API_BASE post params
  = Js.Rejected
      (Js.Error (if bool_decide (Response.statusText res = ""%string)
                 then "[object Object]"%string
                 else Response.statusText res)).
Proof.
  intros Hrun Hok Hjson. unfold runOptimize. rewrite Hrun. simpl.
  rewrite Hok, Hjson. simpl. by case_bool_decide.
Qed.

Lemma String_of_Array (items : list Js.json) :
  JsGlobal.String_of number (Js.Array items)
  = match print_elements number items with
    | inl e => inl e
    | inr printed => inr (String.concat "," printed)
    end.
Proof.
  reflexivity.
Qed.

(** How the objects of an array print: each as [[object Object]] if none
    has an own key [toString], not at all if one has. *)
Lemma print_elements_objects (items : list Js.json) :
  Forall (fun v => exists fields, v = Js.Object fields) items ->
  print_elements number items
  = if forallb (fun v => match v with
                         | Js.Object fields => negb (JsGlobal.has_key "toString" fields)
                         | _ => true
                         end) items
    then inr (replicate (length items) "[object Object]"%string)
    else inl Js.TypeError.
Proof.
  unfold print_elements.
  induction 1 as [|v items [fields ->] _ IH]; [done|].
  simpl. rewrite IH. destruct (JsGlobal.has_key "toString" fields); [done|]. simpl.
  by destruct (forallb _ items).
Qed.

Lemma String_of_objects (items : list Js.json) :
  Forall (fun v => exists fields, v = Js.Object fields) items ->
  JsGlobal.String_of number (Js.Array items)
  = if forallb (fun v => match v with
                         | Js.Object fields => negb (JsGlobal.has_key "toString" fields)
                         | _ => true
                         end) items
    then inr (String.concat "," (replicate (length items) "[object Object]"%string))
    else inl Js.TypeError.
Proof.
  intros Hitems. rewrite String_of_Array, (print_elements_objects items Hitems).
  by destruct (forallb _ items).
Qed.

(** X11. When a non-OK response has a JSON body: a [detail] that is a
    non-empty string is the message of the error; a [detail] that is an
    array of objects gives one [[object Object]] per element, joined by
    commas, if no element has an own key [toString], and a [TypeError]
    instead of an [Error] if one has; a body that is [null] gives a
    [TypeError] too. *)
Theorem runOptimize_error_detail (params : OptimizeParams.t) (t : Z) (res : Response.t)
    (body : Js.json) :
  post (API_BASE +:+ "/optimize") params = Settles t (inr res) ->
  Response.ok res = false ->
  Response.json res = Js.Fulfilled body ->
  (forall s, Js.get_property body "detail" = inr (Some (Js.Str s)) -> s <> ""%string ->
     runOptimize (JsGlobal.String_of number) API_BASE post params
     = Js.Rejected (Js.Error s))
  /\ (forall items,
        Js.get_property body "detail" = inr (Some (Js.Array items)) ->
        Forall (fun v => exists fields,
                           v = Js.Object fields
                           /\ JsGlobal.has_key "toString" fields = false) items ->
        runOptimize (JsGlobal.String_of number) API_BASE post params
        = Js.Rejected
            (Js.Error (String.concat "," (replicate (length items) "[object Object]"%string))))
  /\ (forall items,
        Js.get_property body "detail" = inr (Some (Js.Array items)) ->
        Forall (fun v => exists fields, v = Js.Object fields) items ->
        Exists (fun v => exists fields,
                           v = Js.Object fields
                           /\ JsGlobal.has_key "toString" fields = true) items ->
        runOptimize (JsGlobal.String_of number) API_BASE post params
        = Js.Rejected Js.TypeError)
  /\ (body = Js.Null ->
      runOptimize (JsGlobal.String_of number) API_BASE post params
      = Js.Rejected Js.TypeError).
Proof.
  intros Hrun Hok Hjson. unfold runOptimize. rewrite Hrun.
  cbn [plain_fetch Js.await]. rewrite Hok, Hjson.
  cbn [negb Js.catch Js.await]. split_and!.
  - intros s -> Hs. simpl. by rewrite bool_decide_false.
  - intros items -> Hitems. cbn [Js.truthy default from_option id].
    rewrite String_of_objects
      by (eapply Forall_impl; [exact Hitems|]; intros v (fields & -> & _); by eexists).
    replace (forallb _ items) with true; [done|].
    symmetry. apply forallb_forall. intros v Hv.
    rewrite Forall_forall in Hitems.
    destruct (Hitems v) as (fields & -> & Hkey); [by apply list_elem_of_In|].
    by rewrite Hkey.
  - intros items -> Hitems Hexists. cbn [Js.truthy default from_option id].
    rewrite String_of_objects by done.
    replace (forallb _ items) with false; [done|].
    symmetry. apply not_true_is_false. intros Hall.
    apply Exists_exists in Hexists as (v & Hv & fields & -> & Hkey).
    rewrite forallb_forall in Hall.
    specialize (Hall (Js.Object fields) (proj1 (list_elem_of_In _ _) Hv)).
    simpl in Hall. by rewrite Hkey in Hall.
  - intros ->. reflexivity.
Qed.

End RunOptimizeMessages.

Lemma runOptimize_error_not_json_witness :
  runOptimize (JsGlobal.String_of (fun _ => "0"%string)) "http://127.0.0.1:8000"
    (sample_post (Js.Rejected Js.SyntaxError)) sample_params
  = Js.Rejected (Js.Error "Unprocessable Entity").
Proof.
  exact (runOptimize_error_not_json (fun _ => "0"%string) "http://127.0.0.1:8000"
           (sample_post (Js.Rejected Js.SyntaxError)) sample_params 80
           (Response.mk false "Unprocessable Entity" (Js.Rejected Js.SyntaxError))
           Js.SyntaxError eq_refl eq_refl eq_refl).
Defined.

Lemma runOptimize_error_detail_witness :
  runOptimize (JsGlobal.String_of (fun _ => "0"%string)) "http://127.0.0.1:8000"
    (sample_post
       (Js.Fulfilled
          (Js.Object
             [("detail"%string,
               Js.Array [Js.Object [("msg"%string, Js.Str "field required")];
                         Js.Object [("msg"%string, Js.Str "value is not a valid integer")]])])))
    sample_params
  = Js.Rejected (Js.Error "[object Object],[object Object]").
Proof.
  pose (items := [Js.Object [("msg"%string, Js.Str "field required")];
                  Js.Object [("msg"%string, Js.Str "value is not a valid integer")]]).
  pose (body := Js.Object [("detail"%string, Js.Array items)]).
  assert (Forall (fun v => exists fields,
                             v = Js.Object fields
                             /\ JsGlobal.has_key "toString" fields = false) items) as Hitems.
  { repeat constructor; eexists; split; reflexivity. }
  exact (proj1 (proj2 (runOptimize_error_detail (fun _ => "0"%string) "http://127.0.0.1:8000"
           (sample_post (Js.Fulfilled body)) sample_params 80
           (Response.mk false "Unprocessable Entity" (Js.Fulfilled body)) body
           eq_refl eq_refl eq_refl)) items eq_refl Hitems).
Defined.

(** A validation error whose element has a key [toString] cannot be
    printed: the hook gets a [TypeError], not the [Error] of the code. *)
Example runOptimize_error_detail_toString :
  runOptimize (JsGlobal.String_of (fun _ => "0"%string)) "http://127.0.0.1:8000"
    (sample_post
       (Js.Fulfilled
          (Js.Object
             [("detail"%string, Js.Array [Js.Object [("toString"%string, Js.Number 1)]])])))
    sample_params
  = Js.Rejected Js.TypeError.
Proof. reflexivity. Qed.

(** ** [useDemoData] and the page *)

Section DemoDataFacts.

Variable native : Js.exn -> string.
Variable ToString : Js.json -> string.
Variable API_BASE : string.
Variable fetch : string -> fetch_run.

(** How [fetchDemo] ends, whatever the network does. *)
Lemma fetchDemo_cases (now : string) :
  (exists j, api_success (demo_run API_BASE fetch) j
             /\ fetchDemo ToString API_BASE fetch now = Js.Fulfilled (api_result j))
  \/ ((forall j, ~ api_success (demo_run API_BASE fetch) j)
      /\ (fetchDemo ToString API_BASE fetch now = Js.Fulfilled (fallback_result now)
          \/ (fetchDemo ToString API_BASE fetch now = Js.Pending
              /\ ~ body_read_settles (demo_run API_BASE fetch)))).
Proof.
  destruct (demo_run API_BASE fetch) as [t [e|res]|] eqn:Hrun.
  - right. split; [intros j (? & ? & [=] & _)|]. left.
    unfold fetchDemo, fetchWithTimeout. unfold demo_run in Hrun. rewrite Hrun.
    unfold Js.finally. by destruct (DEMO_TIMEOUT_MS <=? t).
  - destruct (decide (t < DEMO_TIMEOUT_MS)) as [Ht|Ht].
    + pose proof (fetchWithTimeout_in_time API_BASE fetch t res Hrun Ht) as Hres.
      destruct (Response.json res) as [j| e |] eqn:Hjson.
      * destruct (Response.ok res) eqn:Hok.
        -- left. exists j. split; [by exists t, res|].
           unfold fetchDemo. rewrite Hres. simpl. by rewrite Hok, Hjson.
        -- right. split; [intros j' (? & ? & [= <- <-] & _ & ? & _); congruence|].
           left. apply (fetchDemo_not_ok ToString API_BASE fetch now t res); auto.
           by rewrite Hjson.
      * right. split; [intros j' (? & ? & [= <- <-] & _ & _ & ?); congruence|].
        left. destruct (Response.ok res) eqn:Hok.
        -- unfold fetchDemo. rewrite Hres. simpl. by rewrite Hok, Hjson.
        -- apply (fetchDemo_not_ok ToString API_BASE fetch now t res); auto.
           by rewrite Hjson.
      * right. split; [intros j' (? & ? & [= <- <-] & _ & _ & ?); congruence|].
        right. split.
        -- by apply (fetchDemo_body_stalls ToString API_BASE fetch now t res).
        -- intros Hsettles. by apply (Hsettles t res).
    + right. split; [intros j' (? & ? & [= <- <-] & ? & _); lia|]. left.
      unfold fetchDemo, fetchWithTimeout. unfold demo_run in Hrun. rewrite Hrun.
      by rewrite (proj2 (Z.leb_le _ _)) by lia.
  - right. split; [intros j (? & ? & [=] & _)|]. left.
    unfold fetchDemo, fetchWithTimeout. unfold demo_run in Hrun. by rewrite Hrun.
Qed.

(** X12. Whatever the network does and whatever the state was, [load] leaves
    no error behind: its [catch] branch is never taken, because [fetchDemo]
    never rejects. Once [load] is over there is data, and it comes from the
    API exactly when [fromApi] says so. *)
Theorem useDemoData_never_errors (now : string) (s : UseDemoData.state) :
  let s' := UseDemoData.load native s (fetchDemo ToString API_BASE fetch now) in
  UseDemoData.error s' = None
  /\ (UseDemoData.loading s' = false ->
      (UseDemoData.fromApi s' = true
       /\ exists j, api_success (demo_run API_BASE fetch) j
                    /\ UseDemoData.data s' = Some (DemoResult.FromBody j))
      \/ (UseDemoData.fromApi s' = false
          /\ UseDemoData.data s' = Some (DemoResult.Built (getFallbackDemo now))))
  /\ (UseDemoData.loading s' = true
      <-> fetchDemo ToString API_BASE fetch now = Js.Pending).
Proof.
  cbv zeta.
  destruct (fetchDemo_cases now) as [(j & Hj & ->)|[Hnone [->|[-> _]]]]; simpl.
  - split_and!; [done| |done]. intros _. left. split; [done|]. by exists j.
  - split_and!; [done| |done]. intros _. by right.
  - split_and!; done.
Qed.

(** X13. Once the first [load] is over, the page is gone exactly when there
    is data that the view of the role cannot render (it throws while
    rendering). Otherwise the page shows neither the error banner nor the
    spinner; it shows the sample-data banner exactly when the API did not
    answer with a parsed OK response; and it shows the view of the role,
    unless the API answered with a falsy body (such as [null]): then it
    shows "No data yet". *)
Theorem Home_after_load (view_renders : Home.PlatformRole -> DemoResult.payload -> bool)
    (now : string) (role : Home.PlatformRole) :
  body_read_settles (demo_run API_BASE fetch) ->
  let s' := UseDemoData.load native UseDemoData.initial
              (fetchDemo ToString API_BASE fetch now) in
  (Home.render view_renders role s' = None
   <-> exists payload,
         UseDemoData.data s' = Some payload
         /\ Home.has_data s' = true
         /\ view_renders role payload = false)
  /\ forall v,
       Home.render view_renders role s' = Some v ->
       Home.error_banner v = false
       /\ Home.spinner v = false
       /\ (Home.sample_banner v = true
           <-> forall j, ~ api_success (demo_run API_BASE fetch) j)
       /\ (Home.no_data v = true
           <-> exists j, api_success (demo_run API_BASE fetch) j
                         /\ Js.truthy (Some j) = false)
       /\ (Home.role_view v = Some role <-> Home.no_data v = false).
Proof.
  intros Hsettles. cbv zeta.
  assert (forall j j', api_success (demo_run API_BASE fetch) j ->
                       api_success (demo_run API_BASE fetch) j' -> j = j') as Hunique.
  { intros j j' (t & res & Hrun & _ & _ & Hj) (t' & res' & Hrun' & _ & _ & Hj').
    rewrite Hrun in Hrun'. injection Hrun' as _ <-. congruence. }
  destruct (fetchDemo_cases now) as [(j & Hj & ->)|[Hnone [->|[_ Hstall]]]]; [| |done].
  - change (UseDemoData.load native UseDemoData.initial (Js.Fulfilled (api_result j)))
      with (UseDemoData.mk (Some (DemoResult.FromBody j)) false None true).
    unfold Home.render, Home.has_data, Home.has_error.
    cbn [UseDemoData.data UseDemoData.loading UseDemoData.error UseDemoData.fromApi].
    destruct (Js.truthy (Some j)) eqn:Htruthy;
      destruct (view_renders role (DemoResult.FromBody j)) eqn:Hrenders;
      cbn [andb negb];
      (split;
       [split;
        [first [discriminate | intros _; by eexists]
        |first [done | intros (payload & Heq & Htrue & Hno); simplify_eq; congruence]]
       |intros v Hv; simplify_eq; cbn -[Js.truthy]; split_and!; try done]).
    + split; [done|]. intros Hno. destruct (Hno j Hj).
    + split; [done|]. intros (j' & Hj' & Hfalsy).
      rewrite (Hunique j' j Hj' Hj) in Hfalsy. congruence.
    + split; [done|]. intros Hno. destruct (Hno j Hj).
    + split; [|done]. intros _. by exists j.
    + split; [done|]. intros Hno. destruct (Hno j Hj).
    + split; [|done]. intros _. by exists j.
  - change (UseDemoData.load native UseDemoData.initial (Js.Fulfilled (fallback_result now)))
      with (UseDemoData.mk (Some (DemoResult.Built (getFallbackDemo now))) false None false).
    unfold Home.render, Home.has_data, Home.has_error.
    cbn [UseDemoData.data UseDemoData.loading UseDemoData.error UseDemoData.fromApi].
    destruct (view_renders role (DemoResult.Built (getFallbackDemo now))) eqn:Hrenders;
      cbn [andb negb];
      (split;
       [split;
        [first [discriminate | intros _; by eexists]
        |first [done | intros (payload & Heq & Htrue & Hno); simplify_eq; congruence]]
       |intros v Hv; simplify_eq; cbn -[Js.truthy]; split_and!; try done]).
    split; [done|]. intros (j & Hj & _). destruct (Hnone j Hj).
Qed.

End DemoDataFacts.

Lemma Home_after_load_witness :
  body_read_settles (demo_run "http://127.0.0.1:8000" (fun _ => Settles 40 (inr (Response.mk true "OK" (Js.Fulfilled Js.Null)))))
  /\ exists v,
       Home.render (fun _ _ => false) Home.company
         (UseDemoData.load (fun _ => ""%string) UseDemoData.initial
            (fetchDemo (fun _ => ""%string) "http://127.0.0.1:8000"
               (fun _ => Settles 40 (inr (Response.mk true "OK" (Js.Fulfilled Js.Null))))
               sample_now)) = Some v
       /\ Home.no_data v = true.
Proof.
  assert (body_read_settles
            (demo_run "http://127.0.0.1:8000"
               (fun _ => Settles 40 (inr (Response.mk true "OK" (Js.Fulfilled Js.Null))))))
    as Hsettles.
  { intros t res Heq _. injection Heq as _ <-. discriminate. }
  split; [exact Hsettles|].
  eexists. split; [reflexivity|].
  apply (proj2 (Home_after_load (fun _ => ""%string) (fun _ => ""%string)
                  "http://127.0.0.1:8000"
                  (fun _ => Settles 40 (inr (Response.mk true "OK" (Js.Fulfilled Js.Null))))
                  (fun _ _ => false) sample_now Home.company Hsettles) _ eq_refl).
  exists Js.Null. split; [|reflexivity].
  exists 40, (Response.mk true "OK" (Js.Fulfilled Js.Null)). split_and!; reflexivity.
Defined.

(** A truthy body that the view cannot render takes the page down. *)
Example Home_unmounted :
  Home.render (fun _ payload => match payload with
                                | DemoResult.Built _ => true
                                | DemoResult.FromBody _ => false
                                end) Home.company
    (UseDemoData.load (fun _ => ""%string) UseDemoData.initial
       (fetchDemo (fun _ => ""%string) "http://127.0.0.1:8000"
          (fun _ => Settles 40 (inr (Response.mk true "OK" (Js.Fulfilled (Js.Object [])))))
          sample_now)) = None.
Proof. reflexivity. Qed.

(** ** The [useOptimize] hook *)

(** X14. When the server answers a request of the hook with a non-OK
    response, the hook keeps the data it had, stops loading and holds an
    error message; its parameters and its timer are untouched. *)
Theorem useOptimize_failed_request (native : Js.exn -> string)
    (ToString : Js.json -> Js.exn + string)
    (API_BASE : string) (post : string -> OptimizeParams.t -> fetch_run)
    (s : UseOptimize.state) (t : Z) (res : Response.t) :
  post (API_BASE +:+ "/optimize") (UseOptimize.params s) = Settles t (inr res) ->
  Response.ok res = false ->
  Response.json res <> Js.Pending ->
  let s' := UseOptimize.fetchOptimize native s
              (runOptimize ToString API_BASE post (UseOptimize.params s)) in
  UseOptimize.data s' = UseOptimize.data s
  /\ UseOptimize.loading s' = false
  /\ is_Some (UseOptimize.error s')
  /\ UseOptimize.params s' = UseOptimize.params s
  /\ UseOptimize.debounceRef s' = UseOptimize.debounceRef s.
Proof.
  intros Hrun Hok Hbody. cbv zeta.
  destruct (runOptimize_not_ok ToString API_BASE post _ t res Hrun Hok Hbody) as [e ->].
  unfold UseOptimize.fetchOptimize. simpl. split_and!; done.
Qed.

Lemma useOptimize_failed_request_witness :
  let s := UseOptimize.mk sample_params (Some (Js.Str "previous result")) false None None in
  let s' :=
    UseOptimize.fetchOptimize (fun _ => ""%string) s
      (runOptimize (JsGlobal.String_of (fun _ => "0"%string)) "http://127.0.0.1:8000"
         (sample_post (Js.Fulfilled (Js.Object [("detail"%string, Js.Str "budget too low")])))
         (UseOptimize.params s)) in
  UseOptimize.data s' = Some (Js.Str "previous result")
  /\ UseOptimize.loading s' = false
  /\ is_Some (UseOptimize.error s')
  /\ UseOptimize.params s' = sample_params
  /\ UseOptimize.debounceRef s' = None.
Proof.
  assert (Js.Fulfilled (Js.Object [("detail"%string, Js.Str "budget too low")])
          <> (Js.Pending : Js.promise Js.json)) as Hbody by discriminate.
  exact (useOptimize_failed_request (fun _ => ""%string)
           (JsGlobal.String_of (fun _ => "0"%string)) "http://127.0.0.1:8000"
           (sample_post (Js.Fulfilled (Js.Object [("detail"%string, Js.Str "budget too low")])))
           (UseOptimize.mk sample_params (Some (Js.Str "previous result")) false None None)
           80
           (Response.mk false "Unprocessable Entity"
              (Js.Fulfilled (Js.Object [("detail"%string, Js.Str "budget too low")])))
           eq_refl eq_refl Hbody).
Defined.

Example useOptimize_failed_request_message :
  UseOptimize.error
    (UseOptimize.fetchOptimize (fun _ => ""%string)
       (UseOptimize.mk sample_params (Some (Js.Str "previous result")) false None None)
       (runOptimize (JsGlobal.String_of (fun _ => "0"%string)) "http://127.0.0.1:8000"
          (sample_post (Js.Fulfilled (Js.Object [("detail"%string, Js.Str "budget too low")])))
          sample_params))
  = Some "budget too low"%string.
Proof. reflexivity. Qed.

Lemma last_cons_default {A} (x y : A) (l : list A) :
  default x (last (y :: l)) = default y (last l).
Proof.
  revert x y. induction l as [|z l IH]; intros x y; [done|].
  change (last (y :: z :: l)) with (last (z :: l)).
  by rewrite (IH x z), (IH y z).
Qed.

Lemma run_cons (native : Js.exn -> string) (s : UseOptimize.state) (now : Z)
    (e : UseOptimize.event) (trace : list (Z * UseOptimize.event)) :
  UseOptimize.run native s ((now, e) :: trace)
  = let '(s1, sent) := UseOptimize.handle native now s e in
    let '(s2, sent') := UseOptimize.run native s1 trace in
    (s2, sent ++ sent').
Proof. reflexivity. Qed.

Lemma timer_not_due (now : Z) (s : UseOptimize.state) :
  (forall due next, UseOptimize.debounceRef s = Some (due, next) -> now < due) ->
  UseOptimize.timer_fires now s = (s, []).
Proof.
  intros Hdue. unfold UseOptimize.timer_fires.
  destruct (UseOptimize.debounceRef s) as [[due next]|]; [|done].
  specialize (Hdue due next eq_refl).
  by rewrite (proj2 (Z.leb_gt _ _)) by lia.
Qed.

(** The calls of one event: the last one decides the parameters and the
    timer; data, loading and error are left alone. *)
Lemma updateParams_calls_fields (now : Z) (captured : OptimizeParams.t)
    (s : UseOptimize.state) (calls : list OptimizeParams.partial) :
  let s' := foldl (UseOptimize.updateParams now captured) s calls in
  UseOptimize.data s' = UseOptimize.data s
  /\ UseOptimize.loading s' = UseOptimize.loading s
  /\ UseOptimize.error s' = UseOptimize.error s
  /\ (calls = [] -> s' = s)
  /\ (calls <> [] ->
      UseOptimize.params s' = after_calls captured calls
      /\ UseOptimize.debounceRef s'
         = Some (now + DEBOUNCE_MS, after_calls captured calls)).
Proof.
  cbv zeta. revert s. induction calls as [|u calls IH]; intros s; [done|].
  simpl foldl.
  destruct (IH (UseOptimize.updateParams now captured s u))
    as (Hdata & Hloading & Herror & Hnil & Hcons).
  split_and!; [by rewrite Hdata | by rewrite Hloading | by rewrite Herror | done |].
  intros _. destruct calls as [|u' calls].
  - rewrite (Hnil eq_refl). done.
  - destruct (Hcons ltac:(done)) as [Hparams Href].
    by rewrite Hparams, Href.
Qed.

(** Two calls in one event: the update of the first is lost. *)
Example updateParams_same_event :
  UseOptimize.params
    (UseOptimize.updateParams_calls 1000
       (UseOptimize.mk sample_params None false None None)
       [OptimizeParams.mk_partial (Some 120) None None None None;
        OptimizeParams.mk_partial None (Some 7) None None None])
  = OptimizeParams.mk 100 7 1000 1 true.
Proof. reflexivity. Qed.

(** X15. A burst of events that call [updateParams], each less than 500 ms
    after the one before, sends no request while it lasts. It leaves one
    timer, due 500 ms after the last event, and when that timer fires
    exactly one request leaves. It carries the updates of the burst merged
    in the order of the events, where of the calls made during one event
    only the last counts: each of them spreads over the parameters of the
    render before the event. *)
Theorem debounce_burst (native : Js.exn -> string) (s : UseOptimize.state)
    (t0 : Z) (calls0 : list OptimizeParams.partial)
    (rest : list (Z * list OptimizeParams.partial)) :
  (forall due next, UseOptimize.debounceRef s = Some (due, next) -> t0 < due) ->
  spaced t0 (rest.*1) ->
  calls0 <> [] ->
  Forall (fun ev => ev.2 <> []) rest ->
  let final := foldl after_calls (UseOptimize.params s) (calls0 :: rest.*2) in
  let t_last := default t0 (last (rest.*1)) in
  exists s',
    UseOptimize.run native s (update_trace ((t0, calls0) :: rest)) = (s', [])
    /\ UseOptimize.params s' = final
    /\ UseOptimize.debounceRef s' = Some (t_last + DEBOUNCE_MS, final)
    /\ UseOptimize.data s' = UseOptimize.data s
    /\ (forall now, now < t_last + DEBOUNCE_MS -> UseOptimize.timer_fires now s' = (s', []))
    /\ (forall now, t_last + DEBOUNCE_MS <= now ->
          (UseOptimize.timer_fires now s').2 = [final]
          /\ UseOptimize.debounceRef (UseOptimize.timer_fires now s').1 = None).
Proof.
  revert s t0 calls0.
  induction rest as [|[t1 calls1] rest IH]; intros s t0 calls0 Hdue Hspaced Hcalls0 Hrest.
  - cbv zeta.
    destruct (updateParams_calls_fields t0 (UseOptimize.params s) s calls0)
      as (Hdata & _ & _ & _ & Hcons).
    destruct (Hcons Hcalls0) as [Hparams Href].
    change (update_trace [(t0, calls0)]) with [(t0, UseOptimize.UpdateParams calls0)].
    rewrite run_cons. unfold UseOptimize.handle. rewrite (timer_not_due t0 s Hdue).
    simpl UseOptimize.run. unfold UseOptimize.updateParams_calls.
    eexists. split_and!; [reflexivity|exact Hparams|exact Href|exact Hdata| |].
    + intros now Hnow. apply timer_not_due. rewrite Href.
      intros due next [= <- <-]. done.
    + intros now Hnow. unfold UseOptimize.timer_fires. rewrite Href.
      by rewrite (proj2 (Z.leb_le _ _)) by (simpl in *; lia).
  - destruct Hspaced as [Ht1 Hspaced]. simpl in Ht1.
    apply Forall_cons in Hrest as [Hcalls1 Hrest]. simpl in Hcalls1.
    cbv zeta.
    destruct (updateParams_calls_fields t0 (UseOptimize.params s) s calls0)
      as (Hdata & _ & _ & _ & Hcons).
    destruct (Hcons Hcalls0) as [Hparams Href].
    change (update_trace ((t0, calls0) :: (t1, calls1) :: rest))
      with ((t0, UseOptimize.UpdateParams calls0) :: update_trace ((t1, calls1) :: rest)).
    rewrite run_cons. unfold UseOptimize.handle.
    rewrite (timer_not_due t0 s Hdue).
    destruct (IH (UseOptimize.updateParams_calls t0 s calls0) t1 calls1)
      as (s' & Hrun & Hparams' & Href' & Hdata' & Hquiet & Hfire); [|done..|].
    { unfold UseOptimize.updateParams_calls. rewrite Href.
      intros due next [= <- <-]. lia. }
    cbv zeta in Hrun. rewrite Hrun. exists s'.
    unfold UseOptimize.updateParams_calls in Hparams', Href', Hdata', Hfire.
    rewrite Hparams in Hparams', Href', Hfire. rewrite Hdata in Hdata'.
    rewrite !fmap_cons, last_cons_default. simpl fst. simpl snd.
    split_and!; done.
Qed.

Lemma debounce_burst_witness :
  let s := (UseOptimize.mount sample_params).1 in
  let trucks n := OptimizeParams.mk_partial (Some n) None None None None in
  let hubs n := OptimizeParams.mk_partial None (Some n) None None None in
  exists s',
    UseOptimize.run (fun _ => ""%string) s
      (update_trace [(1000, [trucks 110]); (1100, [trucks 120; hubs 7]); (1550, [hubs 9])])
    = (s', [])
    /\ (UseOptimize.timer_fires 2050 s').2 = [OptimizeParams.mk 110 9 1000 1 true].
Proof.
  cbv zeta.
  destruct (debounce_burst (fun _ => ""%string) (UseOptimize.mount sample_params).1 1000
              [OptimizeParams.mk_partial (Some 110) None None None None]
              [(1100, [OptimizeParams.mk_partial (Some 120) None None None None;
                       OptimizeParams.mk_partial None (Some 7) None None None]);
               (1550, [OptimizeParams.mk_partial None (Some 9) None None None])])
    as (s' & Hrun & _ & _ & _ & _ & Hfire).
  - simpl. discriminate.
  - simpl. unfold DEBOUNCE_MS. lia.
  - discriminate.
  - repeat constructor; discriminate.
  - exists s'. split; [exact Hrun|]. apply (Hfire 2050). simpl. unfold DEBOUNCE_MS. lia.
Defined.

Lemma handle_keeps_timer_current (native : Js.exn -> string) (now : Z)
    (s : UseOptimize.state) (e : UseOptimize.event) :
  match UseOptimize.debounceRef s with
  | Some (_, next) => next = UseOptimize.params s
  | None => True
  end ->
  match UseOptimize.debounceRef (UseOptimize.handle native now s e).1 with
  | Some (_, next) => next = UseOptimize.params (UseOptimize.handle native now s e).1
  | None => True
  end.
Proof.
  intros Hinv. unfold UseOptimize.handle.
  assert (match UseOptimize.debounceRef (UseOptimize.timer_fires now s).1 with
          | Some (_, next) => next = UseOptimize.params (UseOptimize.timer_fires now s).1
          | None => True
          end) as Hfired.
  { unfold UseOptimize.timer_fires.
    destruct (UseOptimize.debounceRef s) as [[due next]|] eqn:Href.
    - destruct (due <=? now); simpl; [done | by rewrite Href].
    - simpl. by rewrite Href. }
  destruct (UseOptimize.timer_fires now s) as [s1 sent]. simpl in Hfired.
  destruct e as [calls| |outcome|]; simpl.
  - unfold UseOptimize.updateParams_calls.
    destruct (updateParams_calls_fields now (UseOptimize.params s1) s1 calls)
      as (_ & _ & _ & Hnil & Hcons).
    destruct calls as [|u calls]; [by rewrite (Hnil eq_refl)|].
    destruct (Hcons ltac:(done)) as [-> ->]. done.
  - done.
  - by destruct outcome.
  - done.
Qed.

(** X16. Whatever happened since the hook was mounted (updates, manual
    runs, answers, in any order and at any times), a pending timer holds
    the current parameters: when it fires it sends what [runNow] would send
    now. *)
Theorem timer_holds_current_params (native : Js.exn -> string)
    (initialParams : OptimizeParams.t) (trace : list (Z * UseOptimize.event)) :
  let s := (UseOptimize.run native (UseOptimize.mount initialParams).1 trace).1 in
  match UseOptimize.debounceRef s with
  | Some (due, next) =>
      next = UseOptimize.params s
      /\ (UseOptimize.timer_fires due s).2 = (UseOptimize.runNow s).2
  | None => True
  end.
Proof.
  cbv zeta.
  assert (forall s,
            match UseOptimize.debounceRef s with
            | Some (_, next) => next = UseOptimize.params s
            | None => True
            end ->
            match UseOptimize.debounceRef (UseOptimize.run native s trace).1 with
            | Some (_, next) => next = UseOptimize.params (UseOptimize.run native s trace).1
            | None => True
            end) as Hrun.
  { induction trace as [|[now e] trace IH]; intros s Hinv; [exact Hinv|].
    rewrite run_cons. pose proof (handle_keeps_timer_current native now s e Hinv) as Hstep.
    destruct (UseOptimize.handle native now s e) as [s1 sent1]. simpl in Hstep.
    specialize (IH s1 Hstep).
    by destruct (UseOptimize.run native s1 trace) as [s2 sent2]. }
  specialize (Hrun (UseOptimize.mount initialParams).1 I).
  destruct (UseOptimize.debounceRef _) as [[due next]|] eqn:Href; [|done].
  split; [exact Hrun|].
  unfold UseOptimize.timer_fires. rewrite Href, Z.leb_refl. simpl. by rewrite Hrun.
Qed.

(** ** The congestion table of any list of assignments *)

(** X17. Whatever the assignments, the congestion table of the fallback has
    the 24 slots in order and never reports fewer trucks than a slot has;
    it reports more only for an empty slot divisible by four, where it
    reports 2. *)
Theorem congestionPerTime_never_under_reports (tas : list TruckAssignment.t) :
  CongestionPerTimeItem.slot_id <$> Demo.congestionPerTime tas = seqZ 0 24
  /\ Forall (fun c =>
               count_slot tas (CongestionPerTimeItem.slot_id c) <= CongestionPerTimeItem.trucks c
               /\ (CongestionPerTimeItem.trucks c
                   <> count_slot tas (CongestionPerTimeItem.slot_id c)
                   -> count_slot tas (CongestionPerTimeItem.slot_id c) = 0
                      /\ JsNum.rem (CongestionPerTimeItem.slot_id c) 4 = 0
                      /\ CongestionPerTimeItem.trucks c = 2)
               /\ (count_slot tas (CongestionPerTimeItem.slot_id c) = 0
                   -> JsNum.rem (CongestionPerTimeItem.slot_id c) 4 = 0
                   -> CongestionPerTimeItem.trucks c = 2))
       (Demo.congestionPerTime tas).
Proof.
  unfold Demo.congestionPerTime, JsArray.from. split.
  - apply list_eq. intros i. rewrite !list_lookup_fmap.
    by destruct (seqZ 0 24 !! i).
  - apply Forall_fmap, Forall_forall. intros s _. simpl.
    fold (count_slot tas s). unfold JsNum.or.
    assert (0 <= count_slot tas s) as Hcount by (unfold count_slot, JsArray.len; lia).
    destruct (Z.eqb_spec (count_slot tas s) 0) as [Hzero|Hpos];
      destruct (Z.eqb_spec (JsNum.rem s 4) 0) as [Hrem|Hrem]; split_and!; try lia; try done.
Qed.

(** ** The labels of the charts *)

Lemma append_length (s t : string) :
  String.length (s +:+ t) = (String.length s + String.length t)%nat.
Proof. induction s as [|c s IH]; simpl; [done | by rewrite IH]. Qed.

Lemma append_right_inj (s1 s2 t : string) : (s1 +:+ t = s2 +:+ t)%string -> s1 = s2.
Proof.
  intros Heq.
  assert (String.length s1 = String.length s2) as Hlen.
  { apply (f_equal String.length) in Heq. rewrite !append_length in Heq. lia. }
  revert s2 Heq Hlen. induction s1 as [|c s1 IH]; intros [|c' s2] Heq Hlen; try done.
  simpl in *. injection Heq as -> Heq. f_equal. apply IH; [done|lia].
Qed.

(** X18. The charts label their bars by printing ids: the labels of the hub
    chart, of the zone chart and of the hour chart are pairwise distinct
    exactly when the hub ids, zone ids and hours of the response are. *)
Theorem chart_labels_distinct (data : OptimizeResponse.t) :
  (NoDup (ChartsSection.h_name <$> ChartsSection.hubData data)
   <-> NoDup (HubUsageItem.hub_id <$> OptimizeResponse.hub_usage data))
  /\ (NoDup (ChartsSection.p_zone <$> ChartsSection.pollutionData data)
      <-> NoDup (PollutionPerZoneItem.zone_id <$> OptimizeResponse.pollution_per_zone data))
  /\ (NoDup (ChartsSection.c_name <$> ChartsSection.congestionData data)
      <-> NoDup (CongestionPerTimeItem.hour <$> OptimizeResponse.congestion_per_time data)).
Proof.
  unfold ChartsSection.hubData, ChartsSection.pollutionData, ChartsSection.congestionData.
  rewrite <- !list_fmap_compose. split_and!.
  - rewrite (list_fmap_compose HubUsageItem.hub_id
               (fun z => ("Hub " +:+ JsNum.to_string z)%string)).
    split; [apply NoDup_fmap_1|]. apply NoDup_fmap_2.
    intros z1 z2 Heq. simpl in Heq. injection Heq as Heq. by apply to_string_inj.
  - rewrite (list_fmap_compose PollutionPerZoneItem.zone_id
               (fun z => ("Zone " +:+ JsNum.to_string z)%string)).
    split; [apply NoDup_fmap_1|]. apply NoDup_fmap_2.
    intros z1 z2 Heq. simpl in Heq. injection Heq as Heq. by apply to_string_inj.
  - rewrite (list_fmap_compose CongestionPerTimeItem.hour
               (fun z => (JsNum.to_string z +:+ "h")%string)).
    split; [apply NoDup_fmap_1|]. apply NoDup_fmap_2.
    intros z1 z2 Heq. by apply to_string_inj, (append_right_inj _ _ "h").
Qed.
